(** * saltant SDK: the model / manager layer

    A shallow embedding of [saltant/models/resource.py],
    [base_task_type.py], [base_task_instance.py] and
    [container_task_type.py].

    Python values are an inductive type, dictionaries are insertion-ordered
    association lists, exceptions are an inductive type, and a manager
    method is a computation in a small monad that threads the log of HTTP
    requests handed to the transport session and may end in an exception.
    Name resolution (local / module global / builtin), attribute lookup
    along the method resolution order and the binding of call arguments to
    a function signature are modelled explicitly, because several methods
    of this revision fail exactly there. *)

From Stdlib Require Import String Ascii List ZArith Bool Lia DecimalString.
Import ListNotations.
Open Scope string_scope.
Set Warnings "-register-all".

(* ================================================================= *)
(** ** Python values *)

(** The classes of the four modules, and [object]. *)
Inductive class : Type :=
| object
| Model
| ModelManager
| BaseTaskType
| BaseTaskTypeManager
| BaseTaskInstance
| BaseTaskInstanceManager
| ContainerTaskType
| ContainerTaskTypeManager.

Scheme Equality for class.

(** A [datetime.datetime] object, as produced by [dateutil.parser.parse]. *)
Record datetime := mkDatetime {
  dt_year : Z; dt_month : Z; dt_day : Z;
  dt_hour : Z; dt_minute : Z; dt_second : Z; dt_microsecond : Z;
  dt_utcoffset : option Z
}.

Inductive pyval : Type :=
| PNone
| PBool (b : bool)
| PInt (z : Z)
| PStr (s : string)
| PList (l : list pyval)
| PDict (d : list (string * pyval))
| PDatetime (d : datetime)
| PInstance (c : class) (attrs : list (string * pyval))
| PObject (qualname : string).

(** [PInstance c attrs] is an instance of the model class [c] with its
    attribute dictionary.  [PObject] stands for an object the model does
    not look into: a module, a class, a function or a builtin, known by its
    qualified name. *)

(** A [dict] with string keys, in insertion order. *)
Definition dict := list (string * pyval).

Fixpoint dict_get {V : Type} (d : list (string * V)) (k : string) : option V :=
  match d with
  | [] => None
  | (k', v) :: d' => if String.eqb k k' then Some v else dict_get d' k
  end.

Definition dict_contains {V : Type} (d : list (string * V)) (k : string) : bool :=
  match dict_get d k with Some _ => true | None => false end.

(** [d[k] = v]: an existing key keeps its position, a new key goes last. *)
Fixpoint dict_set {V : Type} (d : list (string * V)) (k : string) (v : V)
  : list (string * V) :=
  match d with
  | [] => [(k, v)]
  | (k', v') :: d' =>
      if String.eqb k k' then (k', v) :: d' else (k', v') :: dict_set d' k v
  end.

(** [d.update(other)] *)
Definition dict_update {V : Type} (d other : list (string * V)) : list (string * V) :=
  fold_left (fun acc kv => dict_set acc (fst kv) (snd kv)) other d.

Definition dict_keys {V : Type} (d : list (string * V)) : list string := map fst d.

Definition is_None (v : pyval) : bool :=
  match v with PNone => true | _ => false end.

(** Truth value testing, as used by [if x:] and [not x]. *)
Definition truthy (v : pyval) : bool :=
  match v with
  | PNone => false
  | PBool b => b
  | PInt z => negb (Z.eqb z 0)
  | PStr s => negb (String.eqb s EmptyString)
  | PList l => match l with [] => false | _ => true end
  | PDict d => match d with [] => false | _ => true end
  | PDatetime _ => true
  | PInstance _ _ => true
  | PObject _ => true
  end.

Definition str_of_Z (z : Z) : string := NilZero.string_of_int (Z.to_int z).

(* ================================================================= *)
(** ** Exceptions and the manager monad *)

Inductive pyexc : Type :=
| NameError (name : string)
| TypeError (msg : string)
| ValueError (msg : string)
| KeyError (key : string)
| AttributeError (msg : string)
| IndexError (msg : string)
| NotImplementedError
| AssertionError
| BadHttpRequestError (msg : string)
| ExternalError (msg : string).

Inductive outcome (A : Type) : Type :=
| Return (a : A)
| Raise (e : pyexc).
Arguments Return {A} a.
Arguments Raise {A} e.

(** One call made on the transport session. *)
Inductive request : Type :=
| GET (url : string)
| POST (url : string) (data : dict).

Definition trace := list request.

(** A computation: reads and extends the request log, ends in a value or
    in an exception.  The log survives an exception. *)
Definition M (A : Type) : Type := trace -> outcome A * trace.

Definition ret {A : Type} (a : A) : M A := fun t => (Return a, t).
Definition raise {A : Type} (e : pyexc) : M A := fun t => (Raise e, t).
Definition bind {A B : Type} (m : M A) (f : A -> M B) : M B :=
  fun t => match m t with
           | (Return a, t') => f a t'
           | (Raise e, t') => (Raise e, t')
           end.
Definition lift {A : Type} (o : outcome A) : M A := fun t => (o, t).

(** [try: m  except <handled>: h] *)
Definition try_except {A : Type} (m : M A) (handled : pyexc -> bool) (h : M A)
  : M A :=
  fun t => match m t with
           | (Return a, t') => (Return a, t')
           | (Raise e, t') => if handled e then h t' else (Raise e, t')
           end.
Definition log (r : request) : M unit := fun t => (Return tt, (t ++ [r])%list).

Declare Scope py_scope.
Delimit Scope py_scope with py.
Notation "x <- m ;; k" := (bind m (fun x => k))
  (at level 100, m at next level, right associativity) : py_scope.
Notation "m ;;; k" := (bind m (fun _ => k))
  (at level 100, right associativity) : py_scope.
Open Scope py_scope.

(** Run a computation from the empty log. *)
Definition run {A : Type} (m : M A) : outcome A * trace := m [].
Definition result {A : Type} (m : M A) : outcome A := fst (run m).
Definition requests {A : Type} (m : M A) : trace := snd (run m).

Definition returns {A : Type} (o : outcome A) : bool :=
  match o with Return _ => true | Raise _ => false end.

(* ================================================================= *)
(** ** [json.dumps] with its default arguments *)

Definition hex_digit (n : nat) : ascii :=
  ascii_of_nat (if Nat.ltb n 10 then 48 + n else 87 + n).

Definition dquote : ascii := ascii_of_nat 34.
Definition backslash : ascii := ascii_of_nat 92.

(** One character of a JSON string ([ensure_ascii=True]): the quote and
    the backslash are escaped, the usual control characters have a short
    form, every other character outside [' '..'~'] becomes [\u00XX]. *)
Definition json_escape_char (c : ascii) : string :=
  let n := nat_of_ascii c in
  if Nat.eqb n 34 then String backslash (String dquote EmptyString)
  else if Nat.eqb n 92 then String backslash (String backslash EmptyString)
  else if Nat.eqb n 10 then String backslash "n"
  else if Nat.eqb n 13 then String backslash "r"
  else if Nat.eqb n 9 then String backslash "t"
  else if Nat.eqb n 8 then String backslash "b"
  else if Nat.eqb n 12 then String backslash "f"
  else if andb (Nat.leb 32 n) (Nat.leb n 126) then String c EmptyString
  else String backslash
         ("u00" ++ String (hex_digit (n / 16))
                     (String (hex_digit (n mod 16)) EmptyString)).

Fixpoint json_escape (s : string) : string :=
  match s with
  | EmptyString => EmptyString
  | String c s' => json_escape_char c ++ json_escape s'
  end.

Definition json_string (s : string) : string :=
  String dquote (json_escape s ++ String dquote EmptyString).

Fixpoint json_dumps (v : pyval) : outcome string :=
  match v with
  | PNone => Return "null"
  | PBool true => Return "true"
  | PBool false => Return "false"
  | PInt z => Return (str_of_Z z)
  | PStr s => Return (json_string s)
  | PList l =>
      match
        (fix items (l : list pyval) : outcome (list string) :=
           match l with
           | [] => Return []
           | x :: xs =>
               match json_dumps x with
               | Raise e => Raise e
               | Return sx =>
                   match items xs with
                   | Raise e => Raise e
                   | Return r => Return (sx :: r)
                   end
               end
           end) l
      with
      | Raise e => Raise e
      | Return parts => Return ("[" ++ String.concat ", " parts ++ "]")
      end
  | PDict d =>
      match
        (fix items (d : list (string * pyval)) : outcome (list string) :=
           match d with
           | [] => Return []
           | (k, x) :: xs =>
               match json_dumps x with
               | Raise e => Raise e
               | Return sx =>
                   match items xs with
                   | Raise e => Raise e
                   | Return r => Return ((json_string k ++ ": " ++ sx) :: r)
                   end
               end
           end) d
      with
      | Raise e => Raise e
      | Return parts => Return ("{" ++ String.concat ", " parts ++ "}")
      end
  | PDatetime _ =>
      Raise (TypeError "Object of type datetime is not JSON serializable")
  | PInstance _ _ =>
      Raise (TypeError "Object of type model is not JSON serializable")
  | PObject q =>
      Raise (TypeError ("Object of type " ++ q ++ " is not JSON serializable"))
  end.

(* ================================================================= *)
(** ** Name resolution *)

(** Names Python finds in the builtins module. *)
Definition builtin_names : list string :=
  [ "abs"; "all"; "any"; "ascii"; "bin"; "bool"; "breakpoint"; "bytearray";
    "bytes"; "callable"; "chr"; "classmethod"; "compile"; "complex";
    "delattr"; "dict"; "dir"; "divmod"; "enumerate"; "eval"; "exec";
    "filter"; "float"; "format"; "frozenset"; "getattr"; "globals";
    "hasattr"; "hash"; "help"; "hex"; "id"; "input"; "int"; "isinstance";
    "issubclass"; "iter"; "len"; "list"; "locals"; "map"; "max";
    "memoryview"; "min"; "next"; "object"; "oct"; "open"; "ord"; "pow";
    "print"; "property"; "range"; "repr"; "reversed"; "round"; "set";
    "setattr"; "slice"; "sorted"; "staticmethod"; "str"; "sum"; "super";
    "tuple"; "type"; "vars"; "zip"; "__import__";
    "None"; "True"; "False"; "Ellipsis"; "NotImplemented"; "__debug__";
    "copyright"; "credits"; "license"; "exit"; "quit";
    "basestring"; "cmp"; "execfile"; "file"; "long"; "raw_input"; "reduce";
    "reload"; "unichr"; "unicode"; "xrange"; "apply"; "buffer"; "coerce";
    "intern";
    "BaseException"; "Exception"; "ArithmeticError"; "AssertionError";
    "AttributeError"; "BlockingIOError"; "BrokenPipeError"; "BufferError";
    "BytesWarning"; "ChildProcessError"; "ConnectionAbortedError";
    "ConnectionError"; "ConnectionRefusedError"; "ConnectionResetError";
    "DeprecationWarning"; "EOFError"; "EnvironmentError";
    "FileExistsError"; "FileNotFoundError"; "FloatingPointError";
    "FutureWarning"; "GeneratorExit"; "IOError"; "ImportError";
    "ImportWarning"; "IndentationError"; "IndexError"; "InterruptedError";
    "IsADirectoryError"; "KeyError"; "KeyboardInterrupt"; "LookupError";
    "MemoryError"; "ModuleNotFoundError"; "NameError";
    "NotADirectoryError"; "NotImplementedError"; "OSError";
    "OverflowError"; "PendingDeprecationWarning"; "PermissionError";
    "ProcessLookupError"; "RecursionError"; "ReferenceError";
    "ResourceWarning"; "RuntimeError"; "RuntimeWarning"; "StandardError";
    "StopAsyncIteration"; "StopIteration"; "SyntaxError"; "SyntaxWarning";
    "SystemError"; "SystemExit"; "TabError"; "TimeoutError"; "TypeError";
    "UnboundLocalError"; "UnicodeDecodeError"; "UnicodeEncodeError";
    "UnicodeError"; "UnicodeTranslateError"; "UnicodeWarning";
    "UserWarning"; "ValueError"; "Warning"; "ZeroDivisionError" ].

Definition mem (x : string) (l : list string) : bool :=
  existsb (String.eqb x) l.

(** Names every module has before its first statement runs. *)
Definition module_dunders : dict :=
  List.map (fun n => (n, PObject n))
      [ "__name__"; "__doc__"; "__package__"; "__loader__"; "__spec__";
        "__file__"; "__cached__"; "__builtins__" ].

(** Modelled from the spec: [saltant.constants] is not part of the sources
    at hand; the spec calls the two codes the "OK" and the "Created"
    status. *)
Definition HTTP_200_OK : Z := 200.
Definition HTTP_201_CREATED : Z := 201.

(** The global names of [base_task_instance.py]: its imports and its two
    class statements. *)
Definition base_task_instance_globals : dict :=
  (module_dunders ++
  [ ("absolute_import", PObject "__future__.absolute_import");
    ("division", PObject "__future__.division");
    ("print_function", PObject "__future__.print_function");
    ("json", PObject "json");
    ("dateutil", PObject "dateutil");
    ("HTTP_200_OK", PInt HTTP_200_OK);
    ("HTTP_201_CREATED", PInt HTTP_201_CREATED);
    ("Model", PObject "saltant.models.resource.Model");
    ("ModelManager", PObject "saltant.models.resource.ModelManager");
    ("BaseTaskInstance", PObject "BaseTaskInstance");
    ("BaseTaskInstanceManager", PObject "BaseTaskInstanceManager") ])%list.

(** Loading a name that is not local to the function: module globals
    first, then builtins, else [NameError]. *)
Definition load_global (globals : dict) (name : string) : M pyval :=
  match dict_get globals name with
  | Some v => ret v
  | None =>
      if mem name builtin_names then ret (PObject name)
      else raise (NameError name)
  end.

(** [x in d] for a string-keyed dict: lists and dicts are unhashable. *)
Definition py_in (x : pyval) (d : dict) : M bool :=
  match x with
  | PStr s => ret (dict_contains d s)
  | PList _ => raise (TypeError "unhashable type: 'list'")
  | PDict _ => raise (TypeError "unhashable type: 'dict'")
  | _ => ret false
  end.

(** [d[k]] *)
Definition subscript (d : dict) (k : string) : M pyval :=
  match dict_get d k with
  | Some v => ret v
  | None => raise (KeyError k)
  end.

(* ================================================================= *)
(** ** Classes: attributes, method signatures, resolution order *)

(** The parameters of a function after [self] / [cls], in order, and the
    defaults of the optional ones. *)
Record signature := mkSig {
  sig_name : string;
  sig_params : list string;
  sig_defaults : dict
}.

Inductive member : Type :=
| ClassAttr (v : pyval)
| ModelClass (c : class)
| Method (s : signature)
| StaticMethod (s : signature)
| ClassMethod (s : signature).

Definition empty_str : pyval := PStr EmptyString.

Definition task_type_fields : list string :=
  [ "id"; "name"; "description"; "user"; "datetime_created";
    "command_to_run"; "environment_variables"; "required_arguments";
    "required_arguments_default_values" ].

(** What each [class] statement binds in its body. *)
Definition class_dict (c : class) : list (string * member) :=
  match c with
  | object =>
      [ ("__init__", Method (mkSig "__init__" [] []));
        ("__str__", Method (mkSig "__str__" [] [])) ]
  | Model =>
      [ ("__str__", Method (mkSig "__str__" [] [])) ]
  | ModelManager =>
      [ ("list_url", ClassAttr (PStr "NotImplemented"));
        ("detail_url", ClassAttr (PStr "NotImplemented"));
        ("__init__", Method (mkSig "__init__" ["_client"] []));
        ("list", Method (mkSig "list" [] []));
        ("get", Method (mkSig "get" [] []));
        ("create", Method (mkSig "create" [] []));
        ("validate_request_success",
         StaticMethod (mkSig "validate_request_success"
           ["request_url"; "status_code"; "expected_status_code"] [])) ]
  | BaseTaskType =>
      [ ("__init__", Method (mkSig "__init__" task_type_fields []));
        ("__str__", Method (mkSig "__str__" [] [])) ]
  | BaseTaskTypeManager =>
      [ ("model", ModelClass BaseTaskType);
        ("get", Method (mkSig "get" ["id"; "name"]
                          [("id", PNone); ("name", PNone)]));
        ("create", Method (mkSig "create"
           [ "name"; "command_to_run"; "description";
             "environment_variables"; "required_arguments";
             "required_arguments_default_values" ]
           [ ("description", empty_str);
             ("environment_variables", PNone);
             ("required_arguments", PNone);
             ("required_arguments_default_values", PNone) ]));
        ("response_data_to_model_instance",
         Method (mkSig "response_data_to_model_instance"
                   ["response_data"] [])) ]
  | BaseTaskInstance =>
      [ ("__init__", Method (mkSig "__init__"
           [ "uuid"; "state"; "user"; "task_queue"; "task_type";
             "datetime_created"; "datetime_finished"; "arguments"; "name" ]
           [ ("name", empty_str) ]));
        ("__str__", Method (mkSig "__str__" [] [])) ]
  | BaseTaskInstanceManager =>
      [ ("model", ModelClass BaseTaskInstance);
        ("get", Method (mkSig "get" ["uuid"] []));
        ("list", Method (mkSig "list" ["query_filters"]
                           [("query_filters", PNone)]));
        ("create", Method (mkSig "create"
           [ "task_type_id"; "task_queue_id"; "arguments"; "name" ]
           [ ("arguments", PNone); ("name", empty_str) ]));
        ("response_data_to_model_instance",
         ClassMethod (mkSig "response_data_to_model_instance"
                        ["response_data"] [])) ]
  | ContainerTaskType =>
      [ ("__init__", Method (mkSig "__init__"
           (task_type_fields ++
            [ "logs_path"; "results_path"; "container_image";
              "container_type"; "manager" ])%list
           [])) ]
  | ContainerTaskTypeManager =>
      [ ("list_url", ClassAttr (PStr "containertasktypes/"));
        ("detail_url", ClassAttr (PStr "containertasktypes/{id}/"));
        ("model", ModelClass ContainerTaskType);
        ("create", Method (mkSig "create"
           [ "name"; "command_to_run"; "container_image"; "container_type";
             "description"; "logs_path"; "results_path";
             "environment_variables"; "required_arguments";
             "required_arguments_default_values"; "extra_data_to_post" ]
           [ ("description", empty_str);
             ("logs_path", empty_str);
             ("results_path", empty_str);
             ("environment_variables", PNone);
             ("required_arguments", PNone);
             ("required_arguments_default_values", PNone);
             ("extra_data_to_post", PNone) ]));
        ("update", Method (mkSig "update"
           [ "task_type"; "extra_data_to_put" ]
           [ ("extra_data_to_put", PNone) ])) ]
  end.

(** The method resolution order: every class here has one base. *)
Definition mro (c : class) : list class :=
  match c with
  | object => [object]
  | Model => [Model; object]
  | ModelManager => [ModelManager; object]
  | BaseTaskType => [BaseTaskType; Model; object]
  | BaseTaskTypeManager => [BaseTaskTypeManager; ModelManager; object]
  | BaseTaskInstance => [BaseTaskInstance; Model; object]
  | BaseTaskInstanceManager => [BaseTaskInstanceManager; ModelManager; object]
  | ContainerTaskType => [ContainerTaskType; BaseTaskType; Model; object]
  | ContainerTaskTypeManager =>
      [ContainerTaskTypeManager; BaseTaskTypeManager; ModelManager; object]
  end.

Definition issubclass (c d : class) : bool := existsb (class_beq d) (mro c).

(** The first class of [l] that binds [name], with what it binds. *)
Fixpoint lookup_in (l : list class) (name : string) : option (class * member) :=
  match l with
  | [] => None
  | c :: l' =>
      match dict_get (class_dict c) name with
      | Some m => Some (c, m)
      | None => lookup_in l' name
      end
  end.

(** [type(self).name] *)
Definition class_getattr (c : class) (name : string) : option (class * member) :=
  lookup_in (mro c) name.

(** The classes that follow [after] in a resolution order. *)
Fixpoint mro_after (after : class) (l : list class) : list class :=
  match l with
  | [] => []
  | c :: l' => if class_beq c after then l' else mro_after after l'
  end.

(** [super(after, self).name] for [self] of class [c]. *)
Definition super_getattr (after c : class) (name : string)
  : option (class * member) :=
  lookup_in (mro_after after (mro c)) name.

(* ================================================================= *)
(** ** Binding the arguments of a call *)

Definition unexpected_keyword (f k : string) : pyexc :=
  TypeError (f ++ "() got an unexpected keyword argument '" ++ k ++ "'").
Definition multiple_values (f k : string) : pyexc :=
  TypeError (f ++ "() got multiple values for argument '" ++ k ++ "'").
Definition too_many_positional (f : string) : pyexc :=
  TypeError (f ++ "() takes fewer positional arguments than were given").
Definition missing_argument (f k : string) : pyexc :=
  TypeError (f ++ "() missing 1 required positional argument: '" ++ k ++ "'").

Fixpoint bind_keywords (s : signature) (bound kw : dict) : outcome dict :=
  match kw with
  | [] => Return bound
  | (k, v) :: kw' =>
      if negb (mem k (sig_params s)) then
        Raise (unexpected_keyword (sig_name s) k)
      else if dict_contains bound k then
        Raise (multiple_values (sig_name s) k)
      else bind_keywords s (bound ++ [(k, v)])%list kw'
  end.

Fixpoint fill_defaults (s : signature) (params : list string) (bound : dict)
  : outcome dict :=
  match params with
  | [] => Return []
  | p :: ps =>
      match
        match dict_get bound p with
        | Some v => Some v
        | None => dict_get (sig_defaults s) p
        end
      with
      | None => Raise (missing_argument (sig_name s) p)
      | Some v =>
          match fill_defaults s ps bound with
          | Raise e => Raise e
          | Return r => Return ((p, v) :: r)
          end
      end
  end.

(** Positional arguments fill the parameters from the left, keywords are
    matched by name, defaults fill what is left; any mismatch is a
    [TypeError].  The result lists the parameters in declaration order. *)
Definition bind_args (s : signature) (pos : list pyval) (kw : dict)
  : outcome dict :=
  match bind_keywords s (combine (sig_params s) pos) kw with
  | Raise e => Raise e
  | Return bound =>
      if Nat.ltb (length (sig_params s)) (length pos) then
        Raise (too_many_positional (sig_name s))
      else fill_defaults s (sig_params s) bound
  end.

(** The value a bound parameter has in the body. *)
Definition arg (env : dict) (name : string) : pyval :=
  match dict_get env name with Some v => v | None => PNone end.

Definition signature_of (m : member) : option signature :=
  match m with
  | Method s | StaticMethod s | ClassMethod s => Some s
  | ClassAttr _ | ModelClass _ => None
  end.

(** Calling what an attribute lookup found: a missing attribute is an
    [AttributeError], the arguments are bound to the signature of the
    method found, and [impl] runs the body of the class that defines it. *)
Definition call_found {A : Type} (found : option (class * member))
    (name : string) (pos : list pyval) (kw : dict)
    (impl : class -> dict -> M A) : M A :=
  match found with
  | None =>
      raise (AttributeError ("object has no attribute '" ++ name ++ "'"))
  | Some (owner, m) =>
      match signature_of m with
      | None => raise (TypeError ("'" ++ name ++ "' object is not callable"))
      | Some s =>
          env <- lift (bind_args s pos kw) ;;
          impl owner env
      end
  end.

(** A class in the resolution order whose body is not in these modules. *)
Definition no_body {A : Type} (name : string) : M A :=
  raise (ExternalError ("no body for " ++ name)).

(* ================================================================= *)
(** ** The transport client *)

(** What the session hands back: [.text], [.status_code], [.json()]. *)
Record Response := mkResponse {
  text : string;
  status_code : Z;
  json : outcome pyval
}.

(** The authenticated session, an external collaborator. *)
Record Session := mkSession {
  session_get : string -> outcome Response;
  session_post : string -> dict -> outcome Response
}.

Record Client := mkClient {
  base_api_url : string;
  session : Session
}.

(** A manager object: its class and the client saved by [__init__]. *)
Record Manager := mkManager {
  manager_class : class;
  _client : Client
}.

Definition http_get (c : Client) (url : string) : M Response :=
  log (GET url) ;;; lift (session_get (session c) url).

Definition http_post (c : Client) (url : string) (data : dict) : M Response :=
  log (POST url data) ;;; lift (session_post (session c) url data).

(** [self.name] for a class attribute holding a value. *)
Definition self_attr (self : Manager) (name : string) : M pyval :=
  match class_getattr (manager_class self) name with
  | Some (_, ClassAttr v) => ret v
  | Some (_, _) => ret (PObject name)
  | None => raise (AttributeError ("object has no attribute '" ++ name ++ "'"))
  end.

(** [a + b] with [a] a string. *)
Definition str_add (a : string) (b : pyval) : M string :=
  match b with
  | PStr s => ret (a ++ s)
  | _ => raise (TypeError "can only concatenate str to str")
  end.

(** [v[k]] and [v[k] = x] on a value that should be a dict. *)
Definition getitem (v : pyval) (k : string) : M pyval :=
  match v with
  | PDict d => subscript d k
  | _ => raise (TypeError "object is not subscriptable with a string key")
  end.

Definition setitem (v : pyval) (k : string) (x : pyval) : M pyval :=
  match v with
  | PDict d => ret (PDict (dict_set d k x))
  | _ => raise (TypeError "object does not support item assignment")
  end.

(** [v[0]] on the result of a [list] call. *)
Definition first_item (v : pyval) : M pyval :=
  match v with
  | PList (x :: _) => ret x
  | PList [] => raise (IndexError "list index out of range")
  | PStr (String c _) => ret (PStr (String c EmptyString))
  | PStr EmptyString => raise (IndexError "string index out of range")
  | PDict _ => raise (KeyError "0")
  | _ => raise (TypeError "object is not subscriptable")
  end.

(** The keyword arguments of a call that unpacks the mapping [v]. *)
Definition double_star (v : pyval) : M dict :=
  match v with
  | PDict d => ret d
  | _ => raise (TypeError "argument after ** must be a mapping")
  end.

(** Arguments documented as [str] and [int]. *)
Definition as_str (v : pyval) : M string :=
  match v with
  | PStr s => ret s
  | _ => raise (TypeError "expected str")
  end.

Definition as_int (v : pyval) : M Z :=
  match v with
  | PInt z => ret z
  | _ => raise (TypeError "expected int")
  end.

(** [self.a = a] for each name of [names], in order. *)
Definition setattrs (attrs : dict) (names : list string) (env : dict) : dict :=
  fold_left (fun a n => dict_set a n (arg env n)) names attrs.

(** [obj.name] on a model instance. *)
Definition getattr (obj : pyval) (name : string) : option pyval :=
  match obj with
  | PInstance _ attrs => dict_get attrs name
  | _ => None
  end.

(* ================================================================= *)
(** ** resource.py *)

Definition ModelManager_list (self : Manager) : M pyval :=
  raise NotImplementedError.

Definition ModelManager_get (self : Manager) : M pyval :=
  raise NotImplementedError.

Definition ModelManager_create (self : Manager) : M pyval :=
  raise NotImplementedError.

Definition is_AssertionError (e : pyexc) : bool :=
  match e with AssertionError => true | _ => false end.

Definition py_assert (b : bool) : M unit :=
  if b then ret tt else raise AssertionError.

Definition failure_message (request_url : string) (status_code : Z) : string :=
  "Request to " ++ request_url ++ " failed with status " ++ str_of_Z status_code.

Definition validate_request_success
    (request_url : string) (status_code expected_status_code : Z) : M unit :=
  try_except
    (py_assert (Z.eqb status_code expected_status_code))
    is_AssertionError
    (let msg := failure_message request_url status_code in
     raise (BadHttpRequestError msg)).

(** [self.validate_request_success] called with keywords [kw], as the
    managers call it. *)
Definition call_validate_request_success (self : Manager) (kw : dict)
  : M unit :=
  call_found
    (class_getattr (manager_class self) "validate_request_success")
    "validate_request_success" [] kw
    (fun owner env =>
       match owner with
       | ModelManager =>
           request_url <- as_str (arg env "request_url") ;;
           status_code <- as_int (arg env "status_code") ;;
           expected_status_code <- as_int (arg env "expected_status_code") ;;
           validate_request_success
             request_url status_code expected_status_code
       | _ => no_body "validate_request_success"
       end).

(** [self.list(...)] and [super(after, self).m(...)] can only reach the
    bodies [ModelManager] gives to [list], [get] and [create]. *)
Definition ModelManager_body (name : string) (self : Manager)
    (owner : class) (env : dict) : M pyval :=
  match owner with
  | ModelManager =>
      if String.eqb name "list" then ModelManager_list self
      else if String.eqb name "get" then ModelManager_get self
      else if String.eqb name "create" then ModelManager_create self
      else no_body name
  | _ => no_body name
  end.

(* ================================================================= *)
(** ** The model classes *)

(** [BaseTaskType.__init__] *)
Definition BaseTaskType_init (attrs : dict) (env : dict) : M dict :=
  ret (setattrs attrs task_type_fields env).

(** [BaseTaskInstance.__init__] *)
Definition BaseTaskInstance_init (attrs : dict) (env : dict) : M dict :=
  ret (setattrs attrs
         [ "name"; "uuid"; "state"; "user"; "task_queue"; "task_type";
           "datetime_created"; "datetime_finished"; "arguments" ] env).

(** [ContainerTaskType.__init__]: the parent constructor is called with
    keywords, [manager] among them, then the four container attributes
    are set. *)
Definition ContainerTaskType_init (self_class : class) (attrs : dict)
    (env : dict) : M dict :=
  attrs <- call_found
    (super_getattr ContainerTaskType self_class "__init__")
    "__init__" []
    [ ("id", arg env "id");
      ("name", arg env "name");
      ("description", arg env "description");
      ("user", arg env "user");
      ("datetime_created", arg env "datetime_created");
      ("command_to_run", arg env "command_to_run");
      ("environment_variables", arg env "environment_variables");
      ("required_arguments", arg env "required_arguments");
      ("required_arguments_default_values",
       arg env "required_arguments_default_values");
      ("manager", arg env "manager") ]
    (fun owner env' =>
       match owner with
       | BaseTaskType => BaseTaskType_init attrs env'
       | object => ret attrs
       | _ => no_body "__init__"
       end) ;;
  ret (setattrs attrs
         [ "logs_path"; "results_path"; "container_image"; "container_type" ]
         env).

(** Calling a model class: a fresh instance, initialised by the
    [__init__] its resolution order finds. *)
Definition construct (c : class) (pos : list pyval) (kw : dict) : M pyval :=
  attrs <- call_found (class_getattr c "__init__") "__init__" pos kw
    (fun owner env =>
       match owner with
       | BaseTaskType => BaseTaskType_init [] env
       | BaseTaskInstance => BaseTaskInstance_init [] env
       | ContainerTaskType => ContainerTaskType_init c [] env
       | object => ret []
       | _ => no_body "__init__"
       end) ;;
  ret (PInstance c attrs).

(** [cls.model] *)
Definition model_of (cls : class) : M class :=
  match class_getattr cls "model" with
  | Some (_, ModelClass m) => ret m
  | _ => raise (AttributeError "object has no attribute 'model'")
  end.

Section Models.

(** [dateutil.parser.parse] on a string; [None] when it raises. *)
Variable dateutil_parse : string -> option datetime.

(** [str(v)] for the values whose rendering is left to Python: containers,
    datetimes, instances. *)
Variable builtin_str : pyval -> string.

Definition dateutil_parser_parse (v : pyval) : M pyval :=
  match v with
  | PStr s =>
      match dateutil_parse s with
      | Some d => ret (PDatetime d)
      | None => raise (ValueError "Unknown string format")
      end
  | _ => raise (TypeError "Parser must be a string or character stream")
  end.

(** [str.format] of one value with an empty format spec. *)
Definition format_value (v : pyval) : string :=
  match v with
  | PStr s => s
  | PInt z => str_of_Z z
  | PNone => "None"
  | PBool true => "True"
  | PBool false => "False"
  | _ => builtin_str v
  end.

(* ----------------------------------------------------------------- *)
(** *** base_task_type.py *)

Definition BaseTaskTypeManager_response_data_to_model_instance
    (self : Manager) (response_data : pyval) : M pyval :=
  created <- getitem response_data "datetime_created" ;;
  created <- dateutil_parser_parse created ;;
  response_data <- setitem response_data "datetime_created" created ;;
  call_found
    (super_getattr BaseTaskTypeManager (manager_class self)
       "response_data_to_model_instance")
    "response_data_to_model_instance" [response_data] []
    (fun _ _ => no_body "response_data_to_model_instance").

(* ----------------------------------------------------------------- *)
(** *** base_task_instance.py *)

Definition prepend (s : string) (o : outcome string) : outcome string :=
  match o with
  | Return r => Return (s ++ r)
  | Raise e => Raise e
  end.

(** [template.format] with keyword arguments [kw], for templates whose
    replacement fields are plain names; doubled braces stand for a
    brace. *)
Fixpoint str_format (template : string) (field : option string) (kw : dict)
  : outcome string :=
  match field with
  | None =>
      match template with
      | EmptyString => Return EmptyString
      | String "{" (String "{" s') => prepend "{" (str_format s' None kw)
      | String "{" s' => str_format s' (Some EmptyString) kw
      | String "}" (String "}" s') => prepend "}" (str_format s' None kw)
      | String "}" _ =>
          Raise (ValueError "Single '}' encountered in format string")
      | String c s' => prepend (String c EmptyString) (str_format s' None kw)
      end
  | Some name =>
      match template with
      | EmptyString => Raise (ValueError "expected '}' before end of string")
      | String "}" s' =>
          match dict_get kw name with
          | Some v => prepend (format_value v) (str_format s' None kw)
          | None =>
              if String.eqb name EmptyString then
                Raise (IndexError "Replacement index 0 out of range")
              else Raise (KeyError name)
          end
      | String c s' => str_format s' (Some (name ++ String c EmptyString)) kw
      end
  end.

Definition format_method (template : pyval) (kw : dict) : M string :=
  match template with
  | PStr s => lift (str_format s None kw)
  | _ => raise (AttributeError "object has no attribute 'format'")
  end.

(** [obj.name] where [obj] was loaded from a global name. *)
Definition object_attr (obj : pyval) (name : string) : M pyval :=
  match getattr obj name with
  | Some v => ret v
  | None => raise (AttributeError ("object has no attribute '" ++ name ++ "'"))
  end.

Definition BaseTaskInstanceManager_response_data_to_model_instance
    (cls : class) (response_data : pyval) : M pyval :=
  created <- getitem response_data "datetime_created" ;;
  created <- dateutil_parser_parse created ;;
  response_data <- setitem response_data "datetime_created" created ;;
  finished <- getitem response_data "datetime_finished" ;;
  response_data <-
    (if truthy finished then
       finished <- getitem response_data "datetime_finished" ;;
       finished <- dateutil_parser_parse finished ;;
       setitem response_data "datetime_finished" finished
     else ret response_data) ;;
  model <- model_of cls ;;
  kw <- double_star response_data ;;
  construct model [] kw.

(** [self.response_data_to_model_instance(data)] on a task instance
    manager. *)
Definition call_response_data_to_model_instance (self : Manager)
    (response_data : pyval) : M pyval :=
  call_found
    (class_getattr (manager_class self) "response_data_to_model_instance")
    "response_data_to_model_instance" [response_data] []
    (fun owner env =>
       match owner with
       | BaseTaskInstanceManager =>
           BaseTaskInstanceManager_response_data_to_model_instance
             (manager_class self) (arg env "response_data")
       | BaseTaskTypeManager =>
           BaseTaskTypeManager_response_data_to_model_instance
             self (arg env "response_data")
       | _ => no_body "response_data_to_model_instance"
       end).

(** The methods of [BaseTaskTypeManager] that call other methods. *)

Definition BaseTaskTypeManager_get (self : Manager) (id name : pyval)
  : M pyval :=
  if negb (xorb (is_None id) (is_None name)) then
    raise (ValueError "Either id or name must be set (but not both!)")
  else if negb (is_None id) then
    call_found
      (super_getattr BaseTaskTypeManager (manager_class self) "get")
      "get" [] [("id", id)]
      (ModelManager_body "get" self)
  else
    found <- call_found
      (class_getattr (manager_class self) "list")
      "list" [] [("filters", PDict [("name", name)])]
      (ModelManager_body "list" self) ;;
    first_item found.

Definition or_default (v default : pyval) : pyval :=
  if is_None v then default else v.

Definition BaseTaskTypeManager_create (self : Manager)
    (name command_to_run description environment_variables
     required_arguments required_arguments_default_values : pyval)
  : M pyval :=
  let environment_variables := or_default environment_variables (PList []) in
  let required_arguments := or_default required_arguments (PList []) in
  let required_arguments_default_values :=
    or_default required_arguments_default_values (PDict []) in
  list_url <- self_attr self "list_url" ;;
  request_url <- str_add (base_api_url (_client self)) list_url ;;
  environment_variables <- lift (json_dumps environment_variables) ;;
  required_arguments <- lift (json_dumps required_arguments) ;;
  required_arguments_default_values <-
    lift (json_dumps required_arguments_default_values) ;;
  let data_to_post :=
    [ ("name", name);
      ("description", description);
      ("command_to_run", command_to_run);
      ("environment_variables", PStr environment_variables);
      ("required_arguments", PStr required_arguments);
      ("required_arguments_default_values",
       PStr required_arguments_default_values) ] in
  response <- http_post (_client self) request_url data_to_post ;;
  call_validate_request_success self
    [ ("response_text", PStr (text response));
      ("request_url", PStr request_url);
      ("status_code", PInt (status_code response));
      ("expected_status_code", PInt HTTP_201_CREATED) ] ;;;
  response_data <- lift (json response) ;;
  call_response_data_to_model_instance self response_data.

(** The methods of [BaseTaskInstanceManager] that issue requests. *)

Definition BaseTaskInstanceManager_get (self : Manager) (uuid : pyval)
  : M pyval :=
  detail_url <- self_attr self "detail_url" ;;
  detail <- format_method detail_url [("uuid", uuid)] ;;
  let request_url := base_api_url (_client self) ++ detail in
  response <- http_get (_client self) request_url ;;
  reponse <- load_global base_task_instance_globals "reponse" ;;
  response_text <- object_attr reponse "text" ;;
  call_validate_request_success self
    [ ("response_text", response_text);
      ("request_url", PStr request_url);
      ("status_code", PInt (status_code response));
      ("expected_status_code", PInt HTTP_200_OK) ] ;;;
  response_data <- lift (json response) ;;
  call_response_data_to_model_instance self response_data.

(** The dict behind the [query_filters] argument, documented as
    [dict, optional]. *)
Definition as_dict (v : pyval) : M dict :=
  match v with
  | PDict d => ret d
  | _ => raise (TypeError "query_filters is not a dict")
  end.

(** The loop over [enumerate(query_filters)]: [keys] are the keys still
    to visit, [idx] the index of the next one. *)
Fixpoint query_filter_loop (query_filters : dict) (keys : list string)
    (idx : nat) (query_filter_sub_url : string) : M string :=
  match keys with
  | [] => ret query_filter_sub_url
  | filter_param :: keys' =>
      let query_filter_sub_url :=
        query_filter_sub_url ++ (if Nat.eqb idx 0 then "?" else "&") in
      val <- subscript query_filters filter_param ;;
      let query_filter_sub_url :=
        query_filter_sub_url ++ (filter_param ++ "=" ++ format_value val) in
      query_filter_loop query_filters keys' (S idx) query_filter_sub_url
  end.

Definition BaseTaskInstanceManager_list (self : Manager)
    (query_filters : pyval) : M pyval :=
  let query_filters :=
    if negb (truthy query_filters) then PDict [] else query_filters in
  page <- load_global base_task_instance_globals "page" ;;
  query_filters <- as_dict query_filters ;;
  has_page <- py_in page query_filters ;;
  let query_filters :=
    if negb has_page then dict_set query_filters "page" (PInt 1)
    else query_filters in
  page_size <- load_global base_task_instance_globals "page_size" ;;
  has_page_size <- py_in page_size query_filters ;;
  let query_filters :=
    if negb has_page_size then
      dict_set query_filters "page_size" (PInt 9223372036854775807)
    else query_filters in
  query_filter_sub_url <-
    query_filter_loop query_filters (dict_keys query_filters) 0 EmptyString ;;
  list_url <- self_attr self "list_url" ;;
  prefix <- str_add (base_api_url (_client self)) list_url ;;
  let request_url := prefix ++ query_filter_sub_url in
  response <- http_get (_client self) request_url ;;
  reponse <- load_global base_task_instance_globals "reponse" ;;
  response_text <- object_attr reponse "text" ;;
  call_validate_request_success self
    [ ("response_text", response_text);
      ("request_url", PStr request_url);
      ("status_code", PInt (status_code response));
      ("expected_status_code", PInt HTTP_200_OK) ] ;;;
  response_data <- lift (json response) ;;
  call_response_data_to_model_instance self response_data.

Definition BaseTaskInstanceManager_create (self : Manager)
    (task_type_id task_queue_id arguments name : pyval) : M pyval :=
  let arguments := if negb (truthy arguments) then PDict [] else arguments in
  list_url <- self_attr self "list_url" ;;
  request_url <- str_add (base_api_url (_client self)) list_url ;;
  arguments <- lift (json_dumps arguments) ;;
  let data_to_post :=
    [ ("name", name);
      ("arguments", PStr arguments);
      ("task_type", task_type_id);
      ("task_queue", task_queue_id) ] in
  response <- http_post (_client self) request_url data_to_post ;;
  call_validate_request_success self
    [ ("response_text", PStr (text response));
      ("request_url", PStr request_url);
      ("status_code", PInt (status_code response));
      ("expected_status_code", PInt HTTP_201_CREATED) ] ;;;
  response_data <- lift (json response) ;;
  call_response_data_to_model_instance self response_data.

(* ----------------------------------------------------------------- *)
(** *** container_task_type.py *)

(** [d.update(other)] on a value that should be a dict. *)
Definition update_method (d : pyval) (other : dict) : M pyval :=
  match d with
  | PDict d => ret (PDict (dict_update d other))
  | _ => raise (AttributeError "object has no attribute 'update'")
  end.

Definition ContainerTaskTypeManager_create (self : Manager)
    (name command_to_run container_image container_type description
     logs_path results_path environment_variables required_arguments
     required_arguments_default_values extra_data_to_post : pyval)
  : M pyval :=
  let extra_data_to_post := or_default extra_data_to_post (PDict []) in
  extra_data_to_post <- update_method extra_data_to_post
    [ ("container_image", container_image);
      ("container_type", container_type);
      ("logs_path", logs_path);
      ("results_path", results_path) ] ;;
  call_found
    (super_getattr ContainerTaskTypeManager (manager_class self) "create")
    "create" []
    [ ("name", name);
      ("command_to_run", command_to_run);
      ("description", description);
      ("environment_variables", environment_variables);
      ("required_arguments", required_arguments);
      ("required_arguments_default_values",
       required_arguments_default_values);
      ("extra_data_to_post", extra_data_to_post) ]
    (fun owner env =>
       match owner with
       | BaseTaskTypeManager =>
           BaseTaskTypeManager_create self
             (arg env "name") (arg env "command_to_run")
             (arg env "description") (arg env "environment_variables")
             (arg env "required_arguments")
             (arg env "required_arguments_default_values")
       | _ => ModelManager_body "create" self owner env
       end).

Definition ContainerTaskTypeManager_update (self : Manager)
    (task_type extra_data_to_put : pyval) : M pyval :=
  let extra_data_to_put := or_default extra_data_to_put (PDict []) in
  container_image <- object_attr task_type "container_image" ;;
  container_type <- object_attr task_type "container_type" ;;
  logs_path <- object_attr task_type "logs_path" ;;
  results_path <- object_attr task_type "results_path" ;;
  extra_data_to_put <- update_method extra_data_to_put
    [ ("container_image", container_image);
      ("container_type", container_type);
      ("logs_path", logs_path);
      ("results_path", results_path) ] ;;
  call_found
    (super_getattr ContainerTaskTypeManager (manager_class self) "update")
    "update" [task_type; extra_data_to_put] []
    (fun _ _ => no_body "update").

(* ----------------------------------------------------------------- *)
(** *** Calling a manager method from outside *)

(** The body a class gives to a method, its parameters read from the
    bound arguments. *)
Definition method_body (owner : class) (name : string) (self : Manager)
    (env : dict) : M pyval :=
  match owner with
  | ModelManager => ModelManager_body name self owner env
  | BaseTaskTypeManager =>
      if String.eqb name "get" then
        BaseTaskTypeManager_get self (arg env "id") (arg env "name")
      else if String.eqb name "create" then
        BaseTaskTypeManager_create self
          (arg env "name") (arg env "command_to_run")
          (arg env "description") (arg env "environment_variables")
          (arg env "required_arguments")
          (arg env "required_arguments_default_values")
      else if String.eqb name "response_data_to_model_instance" then
        BaseTaskTypeManager_response_data_to_model_instance
          self (arg env "response_data")
      else no_body name
  | BaseTaskInstanceManager =>
      if String.eqb name "get" then
        BaseTaskInstanceManager_get self (arg env "uuid")
      else if String.eqb name "list" then
        BaseTaskInstanceManager_list self (arg env "query_filters")
      else if String.eqb name "create" then
        BaseTaskInstanceManager_create self
          (arg env "task_type_id") (arg env "task_queue_id")
          (arg env "arguments") (arg env "name")
      else if String.eqb name "response_data_to_model_instance" then
        BaseTaskInstanceManager_response_data_to_model_instance
          (manager_class self) (arg env "response_data")
      else no_body name
  | ContainerTaskTypeManager =>
      if String.eqb name "create" then
        ContainerTaskTypeManager_create self
          (arg env "name") (arg env "command_to_run")
          (arg env "container_image") (arg env "container_type")
          (arg env "description") (arg env "logs_path")
          (arg env "results_path") (arg env "environment_variables")
          (arg env "required_arguments")
          (arg env "required_arguments_default_values")
          (arg env "extra_data_to_post")
      else if String.eqb name "update" then
        ContainerTaskTypeManager_update self
          (arg env "task_type") (arg env "extra_data_to_put")
      else no_body name
  | _ => no_body name
  end.

(** A call of the method [name] on [self] from client code, with
    positional arguments [pos] and keyword arguments [kw]. *)
Definition call_method (self : Manager) (name : string)
    (pos : list pyval) (kw : dict) : M pyval :=
  call_found (class_getattr (manager_class self) name) name pos kw
    (fun owner env => method_body owner name self env).

End Models.

(* ================================================================= *)
(** * Vocabulary of the properties *)

(** A computation that ends in an exception from every request log. *)
Definition never_returns {A : Type} (m : M A) : Prop :=
  forall t, returns (fst (m t)) = false.

Definition is_TypeError (e : pyexc) : Prop := exists msg, e = TypeError msg.

(** No key occurs twice, as in every Python dict. *)
Fixpoint keys_unique (d : dict) : bool :=
  match d with
  | [] => true
  | (k, _) :: d' => negb (dict_contains d' k) && keys_unique d'
  end.

(** The query string the loop of [list] is written to build: [?k=v] for
    the first pair, [&k=v] for the others, in the order of the mapping. *)
Fixpoint query_string (str : pyval -> string) (first : bool) (pairs : dict)
  : string :=
  match pairs with
  | [] => EmptyString
  | (k, v) :: pairs' =>
      (if first then "?" else "&") ++ (k ++ "=" ++ format_value str v)
      ++ query_string str false pairs'
  end.

(** What a parameter is bound to: the keyword of its name, else its
    default. *)
Definition bound_value (s : signature) (kw : dict) (p : string)
  : option pyval :=
  match dict_get kw p with
  | Some v => Some v
  | None => dict_get (sig_defaults s) p
  end.

(** The signature [BaseTaskInstance.__init__] is called against. *)
Definition task_instance_signature : signature :=
  mkSig "__init__"
    [ "uuid"; "state"; "user"; "task_queue"; "task_type";
      "datetime_created"; "datetime_finished"; "arguments"; "name" ]
    [ ("name", empty_str) ].

(** A response dictionary the task instance constructor accepts: its keys
    are distinct, each is a parameter, and every parameter without a
    default is present. *)
Definition task_instance_response (d : dict) : bool :=
  keys_unique d
  && forallb (fun k => mem k (sig_params task_instance_signature))
             (dict_keys d)
  && forallb (fun p => dict_contains d p
                       || dict_contains (sig_defaults task_instance_signature) p)
             (sig_params task_instance_signature).

(** What the [datetime_finished] attribute holds after parsing a response
    whose [datetime_finished] is [f]: a false value (null among them) is
    kept as it is, a true one must be a string and is parsed. *)
Definition finished_attribute (parse : string -> option datetime) (f : pyval)
  : option pyval :=
  if truthy f then
    match f with
    | PStr s => option_map PDatetime (parse s)
    | _ => None
    end
  else Some f.

(** The managers client code builds: [ModelManager.__init__] saves the
    client. *)
Definition task_type_manager (c : Client) : Manager :=
  mkManager BaseTaskTypeManager c.
Definition task_instance_manager (c : Client) : Manager :=
  mkManager BaseTaskInstanceManager c.
Definition container_task_type_manager (c : Client) : Manager :=
  mkManager ContainerTaskTypeManager c.

(** A client whose session answers every request, [answer] giving the
    response to a URL. *)
Definition answering (base : string) (answer : string -> Response) : Client :=
  mkClient base
    (mkSession (fun url => Return (answer url))
               (fun url _ => Return (answer url))).

(** An optional dict argument: [None] or a dict. *)
Definition optional_dict (o : option dict) : pyval :=
  match o with
  | Some d => PDict d
  | None => PNone
  end.

(** ** Sample collaborators, for concrete runs *)

Definition sample_datetime : datetime :=
  mkDatetime 2018 7 4 12 30 0 0 (Some 0%Z).

Definition sample_parse (s : string) : option datetime :=
  if String.eqb s "2018-07-04T12:30:00Z" then Some sample_datetime else None.

Definition sample_str (v : pyval) : string := "<object>".

Definition sample_response (code : Z) : Response :=
  mkResponse "{}" code (Return (PDict [])).

(** A session that answers every request with status [code]. *)
Definition sample_client (code : Z) : Client :=
  mkClient "https://saltant.example/api/"
    (mkSession (fun _ => Return (sample_response code))
               (fun _ _ => Return (sample_response code))).

Definition sample_instance_response : dict :=
  [ ("uuid", PStr "6f6a2d6c");
    ("name", PStr "nightly");
    ("state", PStr "running");
    ("user", PStr "alice");
    ("task_queue", PInt 1);
    ("task_type", PInt 2);
    ("datetime_created", PStr "2018-07-04T12:30:00Z");
    ("datetime_finished", PNone);
    ("arguments", PDict [("n", PInt 3)]) ].

Definition sample_type_response : dict :=
  [ ("id", PInt 5);
    ("name", PStr "train");
    ("description", empty_str);
    ("user", PStr "alice");
    ("datetime_created", PStr "2018-07-04T12:30:00Z");
    ("command_to_run", PStr "python train.py");
    ("environment_variables", PList []);
    ("required_arguments", PList []);
    ("required_arguments_default_values", PDict []) ].

(* ================================================================= *)
(** * The display strings of the models *)

(** [Model.__str__] *)
Definition Model_str (self : pyval) : M pyval :=
  raise NotImplementedError.

(** [BaseTaskType.__str__]: the name, then the user in parentheses, both
    rendered by [%s]. *)
Definition BaseTaskType_str (str : pyval -> string) (self : pyval) : M pyval :=
  name <- object_attr self "name" ;;
  user <- object_attr self "user" ;;
  ret (PStr (format_value str name ++ " (" ++ format_value str user ++ ")")).

(** [BaseTaskInstance.__str__]: the uuid attribute as it is. *)
Definition BaseTaskInstance_str (self : pyval) : M pyval :=
  object_attr self "uuid".

(** [str(obj)] on a model instance runs the [__str__] its class finds
    and insists on a string. *)
Definition str_of_model (str : pyval -> string) (obj : pyval) : M string :=
  match obj with
  | PInstance c _ =>
      r <- call_found (class_getattr c "__str__") "__str__" [] []
        (fun owner _ =>
           match owner with
           | BaseTaskType => BaseTaskType_str str obj
           | BaseTaskInstance => BaseTaskInstance_str obj
           | Model => Model_str obj
           | _ => ret (PStr (str obj))
           end) ;;
      match r with
      | PStr s => ret s
      | _ => raise (TypeError "__str__ returned non-string")
      end
  | _ => ret (format_value str obj)
  end.

(* ================================================================= *)
(** * Further vocabulary *)

(** The Python class name of an exception. *)
Definition exc_name (e : pyexc) : string :=
  match e with
  | NameError _ => "NameError"
  | TypeError _ => "TypeError"
  | ValueError _ => "ValueError"
  | KeyError _ => "KeyError"
  | AttributeError _ => "AttributeError"
  | IndexError _ => "IndexError"
  | NotImplementedError => "NotImplementedError"
  | AssertionError => "AssertionError"
  | BadHttpRequestError _ => "BadHttpRequestError"
  | ExternalError _ => "ExternalError"
  end.

(** A computation that ends in an exception satisfying [P] and leaves the
    request log as it found it. *)
Definition fails_with {A : Type} (P : pyexc -> Prop) (m : M A) : Prop :=
  forall t, exists e, m t = (Raise e, t) /\ P e.

(** A computation that never touches the request log and raises nothing
    but exceptions satisfying [P]. *)
Definition quiet {A : Type} (P : pyexc -> Prop) (m : M A) : Prop :=
  forall t, (exists a, m t = (Return a, t))
            \/ (exists e, m t = (Raise e, t) /\ P e).

Definition is_AttributeError (e : pyexc) : Prop :=
  exists msg, e = AttributeError msg.

Definition any_exception (e : pyexc) : Prop := True.

(** The signature [BaseTaskType.__init__] is called against. *)
Definition task_type_signature : signature :=
  mkSig "__init__" task_type_fields [].

(** Keyword arguments a signature accepts: distinct names, each a
    parameter, covering every parameter that has no default. *)
Definition accepted_by (s : signature) (kw : dict) : bool :=
  keys_unique kw
  && forallb (fun k => mem k (sig_params s)) (dict_keys kw)
  && forallb (fun p => dict_contains kw p
                       || dict_contains (sig_defaults s) p)
             (sig_params s).

(** The response dictionary after the two date-time coercions: [created]
    replaces the creation string, [finished] replaces a true
    [datetime_finished]. *)
Definition coerced_response (d : dict) (created : datetime)
    (f finished : pyval) : dict :=
  let d1 := dict_set d "datetime_created" (PDatetime created) in
  if truthy f then dict_set d1 "datetime_finished" finished else d1.

(** The arguments [create] encodes, after the [None] defaults. *)
Definition encoded_argument (v default : pyval) : outcome string :=
  json_dumps (or_default v default).

(** A client whose session raises [e] on every request. *)
Definition failing (base : string) (e : pyexc) : Client :=
  mkClient base (mkSession (fun _ => Raise e) (fun _ _ => Raise e)).

(** The payloads of the two [create] methods. *)
Definition task_type_payload
    (name description command_to_run : pyval) (ev ra rd : string) : dict :=
  [ ("name", name);
    ("description", description);
    ("command_to_run", command_to_run);
    ("environment_variables", PStr ev);
    ("required_arguments", PStr ra);
    ("required_arguments_default_values", PStr rd) ].

Definition task_instance_payload
    (name : pyval) (arguments : string) (task_type_id task_queue_id : pyval)
  : dict :=
  [ ("name", name);
    ("arguments", PStr arguments);
    ("task_type", task_type_id);
    ("task_queue", task_queue_id) ].


(** The sample response with a field the model does not declare, and
    without its [datetime_finished]. *)
Definition sample_response_with_url : dict :=
  (sample_instance_response
   ++ [("url", PStr "https://saltant.example/api/taskinstances/6f6a2d6c/")])%list.

Definition sample_response_without_finished : dict :=
  filter (fun kv => negb (String.eqb (fst kv) "datetime_finished"))
         sample_instance_response.

(* ================================================================= *)
(** * Properties *)

(** ** Reasoning about computations *)

Lemma never_returns_raise {A : Type} (e : pyexc) :
  never_returns (@raise A e).
Proof. intro t. reflexivity. Qed.

Lemma never_returns_bind_l {A B : Type} (m : M A) (f : A -> M B) :
  never_returns m -> never_returns (bind m f).
Proof.
  intros Hm t. unfold bind. specialize (Hm t).
  destruct (m t) as [[a | e] t']; simpl in *; [discriminate | reflexivity].
Qed.

Lemma never_returns_bind_r {A B : Type} (m : M A) (f : A -> M B) :
  (forall a, never_returns (f a)) -> never_returns (bind m f).
Proof.
  intros Hf t. unfold bind.
  destruct (m t) as [[a | e] t']; simpl; [apply Hf | reflexivity].
Qed.

Lemma never_returns_result {A : Type} (m : M A) :
  never_returns m -> returns (result m) = false.
Proof. intro H. apply (H []). Qed.

Ltac skip_steps :=
  repeat (apply never_returns_bind_r; intro).

(** ** Name resolution in base_task_instance.py *)

Lemma page_is_undefined :
  forall t, load_global base_task_instance_globals "page" t
            = (Raise (NameError "page"), t).
Proof. intro t. reflexivity. Qed.

Lemma page_size_is_undefined :
  forall t, load_global base_task_instance_globals "page_size" t
            = (Raise (NameError "page_size"), t).
Proof. intro t. reflexivity. Qed.

Lemma reponse_is_undefined :
  forall t, load_global base_task_instance_globals "reponse" t
            = (Raise (NameError "reponse"), t).
Proof. intro t. reflexivity. Qed.

(** ** Argument binding *)

Lemma bind_keywords_TypeError (s : signature) (kw bound : dict) (e : pyexc) :
  bind_keywords s bound kw = Raise e -> is_TypeError e.
Proof.
  revert bound. induction kw as [| [k v] kw IH]; intros bound H; simpl in H.
  - discriminate.
  - destruct (negb (mem k (sig_params s))).
    + inversion H. eexists. reflexivity.
    + destruct (dict_contains bound k).
      * inversion H. eexists. reflexivity.
      * eapply IH. exact H.
Qed.

Lemma fill_defaults_TypeError (s : signature) (params : list string)
    (bound : dict) (e : pyexc) :
  fill_defaults s params bound = Raise e -> is_TypeError e.
Proof.
  induction params as [| p ps IH]; intro H; simpl in H.
  - discriminate.
  - destruct (match dict_get bound p with
              | Some v => Some v
              | None => dict_get (sig_defaults s) p
              end).
    + destruct (fill_defaults s ps bound) eqn:E.
      * discriminate.
      * inversion H. subst. apply IH. reflexivity.
    + inversion H. eexists. reflexivity.
Qed.

(** A call whose arguments do not fit the signature raises [TypeError]
    and nothing else. *)
Lemma bind_args_TypeError (s : signature) (pos : list pyval) (kw : dict)
    (e : pyexc) :
  bind_args s pos kw = Raise e -> is_TypeError e.
Proof.
  unfold bind_args. intro H.
  destruct (bind_keywords s (combine (sig_params s) pos) kw) eqn:E.
  - destruct (Nat.ltb (length (sig_params s)) (length pos)).
    + inversion H. eexists. reflexivity.
    + eapply fill_defaults_TypeError. exact H.
  - inversion H. subst. eapply bind_keywords_TypeError. exact E.
Qed.

(** The keyword [response_text] is not a parameter of
    [validate_request_success]: the call raises before the body runs,
    whatever the other arguments are. *)
Lemma validate_call_rejects_response_text
    (self : Manager) (v : pyval) (rest : dict) :
  never_returns
    (call_validate_request_success self (("response_text", v) :: rest)).
Proof.
  intro t. unfold call_validate_request_success, call_found.
  destruct (manager_class self); reflexivity.
Qed.

Lemma validate_call_TypeError (c : Client) (v : pyval) (rest : dict)
    (cls : class) (t : trace) :
  issubclass cls ModelManager = true ->
  call_validate_request_success (mkManager cls c)
    (("response_text", v) :: rest) t
  = (Raise (unexpected_keyword "validate_request_success" "response_text"),
     t).
Proof.
  destruct cls; simpl; intro H; try discriminate; reflexivity.
Qed.

(** What the validation does once it is entered with arguments it
    accepts. *)
Lemma validate_request_success_eq (url : string) (code expected : Z)
    (t : trace) :
  validate_request_success url code expected t =
  if Z.eqb code expected then (Return tt, t)
  else (Raise (BadHttpRequestError
                 ("Request to " ++ url ++ " failed with status "
                  ++ str_of_Z code)), t).
Proof.
  unfold validate_request_success, try_except, py_assert.
  destruct (Z.eqb code expected); reflexivity.
Qed.

(* ================================================================= *)
(** ** [BaseTaskInstanceManager.list] *)

(** C1.  [list] with no filters should request [page=1] and
    [page_size=9223372036854775807], and keep a caller's [page].  The
    membership tests of lines 143 and 146 name the variables [page] and
    [page_size] instead of the strings: whatever the manager and the
    filters (absent, empty, or holding a [page] key), the call raises
    [NameError] for [page] and no request is handed to the session, so
    no query string exists. *)
Theorem C1_list_raises_NameError_before_any_request :
  forall (parse : string -> option datetime) (str : pyval -> string)
         (self : Manager) (query_filters : pyval),
    run (BaseTaskInstanceManager_list parse str self query_filters)
    = (Raise (NameError "page"), []).
Proof. intros parse str self query_filters. reflexivity. Qed.

(** C8.  A non-empty filter mapping should be serialized as
    [?k=v&k2=v2...].  The same undefined name stops [list] before the
    loop that builds the query string: for every manager and every
    non-empty mapping the call raises [NameError] and issues no request. *)
Theorem C8_list_with_filters_builds_no_url :
  forall (parse : string -> option datetime) (str : pyval -> string)
         (self : Manager) (k : string) (v : pyval) (filters : dict),
    result (BaseTaskInstanceManager_list parse str self
              (PDict ((k, v) :: filters)))
    = Raise (NameError "page")
    /\ requests (BaseTaskInstanceManager_list parse str self
                   (PDict ((k, v) :: filters))) = [].
Proof. intros parse str self k v filters. split; reflexivity. Qed.

(** ** Strings and dictionaries *)

Lemma append_assoc (a b c : string) : (a ++ b) ++ c = a ++ (b ++ c).
Proof. induction a as [| x a IH]; simpl; [reflexivity | now rewrite IH]. Qed.

Lemma append_empty_r (a : string) : a ++ EmptyString = a.
Proof. induction a as [| x a IH]; simpl; [reflexivity | now rewrite IH]. Qed.

Lemma dict_contains_middle (pre suf : dict) (k : string) (v : pyval) :
  dict_contains (pre ++ (k, v) :: suf)%list k = true.
Proof.
  unfold dict_contains.
  induction pre as [| [k0 v0] pre IH]; simpl.
  - now rewrite String.eqb_refl.
  - destruct (String.eqb k k0); [reflexivity | exact IH].
Qed.

(** In a dict without repeated keys, a key gives the value it is paired
    with. *)
Lemma dict_get_middle (pre suf : dict) (k : string) (v : pyval) :
  keys_unique (pre ++ (k, v) :: suf)%list = true ->
  dict_get (pre ++ (k, v) :: suf)%list k = Some v.
Proof.
  induction pre as [| [k0 v0] pre IH]; simpl; intro H.
  - now rewrite String.eqb_refl.
  - apply andb_true_iff in H. destruct H as [Hk0 Hu].
    destruct (String.eqb_spec k k0) as [-> | Hne].
    + rewrite dict_contains_middle in Hk0. discriminate.
    + apply IH. exact Hu.
Qed.

Lemma query_filter_loop_from (str : pyval -> string) (suf pre : dict)
    (acc : string) (t : trace) :
  keys_unique (pre ++ suf)%list = true ->
  query_filter_loop str (pre ++ suf)%list (dict_keys suf) (length pre) acc t
  = (Return (acc ++ query_string str (Nat.eqb (length pre) 0) suf), t).
Proof.
  revert pre acc.
  induction suf as [| [k v] suf IH]; intros pre acc Hu; simpl.
  - now rewrite append_empty_r.
  - unfold bind, subscript. rewrite (dict_get_middle pre suf k v Hu).
    unfold ret.
    assert (E : (pre ++ (k, v) :: suf)%list = ((pre ++ [(k, v)]) ++ suf)%list)
      by now rewrite <- app_assoc.
    rewrite E in Hu |- *.
    replace (S (length pre)) with (length (pre ++ [(k, v)])%list)
      by (rewrite length_app; simpl; lia).
    rewrite (IH (pre ++ [(k, v)])%list _ Hu).
    rewrite length_app. simpl.
    replace (Nat.eqb (length pre + 1) 0) with false
      by (symmetry; apply Nat.eqb_neq; lia).
    now rewrite !append_assoc.
Qed.

(** Once entered, the loop of [list] serializes the mapping in its own
    order, [?] before the first pair and [&] before the others. *)
Lemma query_filter_loop_serializes (str : pyval -> string) (d : dict)
    (t : trace) :
  keys_unique d = true ->
  query_filter_loop str d (dict_keys d) 0 EmptyString t
  = (Return (query_string str true d), t).
Proof.
  intro Hu. exact (query_filter_loop_from str d [] EmptyString t Hu).
Qed.

(* ================================================================= *)
(** ** [BaseTaskTypeManager.get] *)

(** C2.  [get(id, name)] raises [ValueError] before any request when both
    arguments are [None] or both are set; that part holds.  With an id
    and no name the call should return the task type fetched by id: it
    delegates to [ModelManager.get], which takes no [id] parameter, so
    the call raises [TypeError] and no request is issued. *)
Theorem C2_get_guards_arguments_but_cannot_fetch_by_id :
  forall (client : Client) (id : Z) (name : string),
    run (BaseTaskTypeManager_get (task_type_manager client) PNone PNone)
    = (Raise (ValueError "Either id or name must be set (but not both!)"), [])
    /\ run (BaseTaskTypeManager_get (task_type_manager client)
              (PInt id) (PStr name))
       = (Raise (ValueError "Either id or name must be set (but not both!)"),
          [])
    /\ run (BaseTaskTypeManager_get (task_type_manager client)
              (PInt id) PNone)
       = (Raise (TypeError "get() got an unexpected keyword argument 'id'"),
          []).
Proof. intros client id name. repeat split; reflexivity. Qed.

(** The guard of [get] in general: when both or neither argument is
    [None], [ValueError] is raised and the session is not used. *)
Lemma get_requires_exactly_one_argument (self : Manager) (id name : pyval) :
  is_None id = is_None name ->
  run (BaseTaskTypeManager_get self id name)
  = (Raise (ValueError "Either id or name must be set (but not both!)"), []).
Proof.
  intro H. unfold BaseTaskTypeManager_get. rewrite H.
  destruct (is_None name); reflexivity.
Qed.

(* ================================================================= *)
(** ** Status validation *)

(** C3.  A read whose response does not bear the expected status should
    raise [BadHttpRequestError] with the URL and the status.  In
    [BaseTaskInstanceManager.get] the first keyword argument of the
    validation call reads the undefined name [reponse]: whatever response
    the session gives (a 404 as much as a 200), the request is issued and
    the call then raises [NameError]; the validation is never entered. *)
Theorem C3_get_raises_NameError_whatever_the_status :
  forall (parse : string -> option datetime) (str : pyval -> string)
         (base : string) (answer : string -> Response) (uuid : pyval),
    run (BaseTaskInstanceManager_get parse str
           (task_instance_manager (answering base answer)) uuid)
    = (Raise (NameError "reponse"), [GET (base ++ "NotImplemented")]).
Proof. intros parse str base answer uuid. reflexivity. Qed.

(* ================================================================= *)
(** ** Response parsing for task types *)

(** C4.  Parsing a response carrying the fields of a created resource
    should give a typed instance with those attributes.  For task types
    (and container task types, which inherit the method) the conversion
    ends by delegating to a parent method no class above
    [BaseTaskTypeManager] defines: it raises for every manager and every
    response, with [AttributeError] on a well-formed response. *)
Theorem C4_task_type_response_never_becomes_a_model :
  forall (parse : string -> option datetime),
    (forall (self : Manager) (response_data : pyval),
        never_returns
          (BaseTaskTypeManager_response_data_to_model_instance
             parse self response_data))
    /\ (forall client,
           run (BaseTaskTypeManager_response_data_to_model_instance
                  sample_parse (task_type_manager client)
                  (PDict sample_type_response))
           = (Raise (AttributeError
                "object has no attribute 'response_data_to_model_instance'"),
              []))
    /\ (forall client,
           run (BaseTaskTypeManager_response_data_to_model_instance
                  sample_parse (container_task_type_manager client)
                  (PDict sample_type_response))
           = (Raise (AttributeError
                "object has no attribute 'response_data_to_model_instance'"),
              [])).
Proof.
  intro parse. repeat split.
  intros self response_data.
  unfold BaseTaskTypeManager_response_data_to_model_instance.
  skip_steps. intro t. unfold call_found.
  destruct (manager_class self); reflexivity.
Qed.

(* ================================================================= *)
(** ** [ContainerTaskTypeManager.create] *)

(** C6.  Creating a container task type should post the four container
    fields beside the base fields.  The container fields are gathered in
    [extra_data_to_post] and forwarded to [BaseTaskTypeManager.create],
    which has no such parameter: for all arguments the call raises
    [TypeError] and nothing is posted. *)
Theorem C6_container_create_raises_TypeError_before_posting :
  forall (parse : string -> option datetime) (client : Client)
         (name command_to_run container_image container_type description
          logs_path results_path environment_variables required_arguments
          required_arguments_default_values : pyval)
         (extra_data_to_post : option dict),
    run (ContainerTaskTypeManager_create parse
           (container_task_type_manager client)
           name command_to_run container_image container_type description
           logs_path results_path environment_variables required_arguments
           required_arguments_default_values
           (optional_dict extra_data_to_post))
    = (Raise (TypeError
         "create() got an unexpected keyword argument 'extra_data_to_post'"),
       []).
Proof. intros. destruct extra_data_to_post; reflexivity. Qed.

(* ================================================================= *)
(** ** [ContainerTaskType] *)

(** C10.  No [ContainerTaskType] can be constructed: for every positional
    and keyword arguments the call raises [TypeError], either because the
    arguments do not fit the fourteen parameters, or, when they do,
    because [__init__] passes the keyword [manager] to
    [BaseTaskType.__init__], which has no such parameter. *)
Theorem C10_ContainerTaskType_cannot_be_constructed :
  forall (pos : list pyval) (kw : dict),
    exists msg,
      run (construct ContainerTaskType pos kw) = (Raise (TypeError msg), []).
Proof.
  intros pos kw. unfold run, construct, bind, call_found. simpl.
  unfold lift.
  match goal with
  | |- context [bind_args ?s pos kw] => destruct (bind_args s pos kw) eqn:E
  end.
  - eexists. reflexivity.
  - destruct (bind_args_TypeError _ _ _ _ E) as [msg ->].
    exists msg. reflexivity.
Qed.

(* ================================================================= *)
(** ** The operations that issue requests *)

Tactic Notation "skip" integer(n) :=
  do n (apply never_returns_bind_r; intro).

Lemma task_type_create_never_returns
    (parse : string -> option datetime) (self : Manager)
    (name command_to_run description environment_variables
     required_arguments required_arguments_default_values : pyval) :
  never_returns
    (BaseTaskTypeManager_create parse self name command_to_run description
       environment_variables required_arguments
       required_arguments_default_values).
Proof.
  unfold BaseTaskTypeManager_create. cbv zeta. skip 6.
  apply never_returns_bind_l. apply validate_call_rejects_response_text.
Qed.

Lemma task_instance_get_never_returns
    (parse : string -> option datetime) (str : pyval -> string)
    (self : Manager) (uuid : pyval) :
  never_returns (BaseTaskInstanceManager_get parse str self uuid).
Proof.
  unfold BaseTaskInstanceManager_get. cbv zeta. skip 3.
  apply never_returns_bind_l. intro t. reflexivity.
Qed.

Lemma task_instance_list_never_returns
    (parse : string -> option datetime) (str : pyval -> string)
    (self : Manager) (query_filters : pyval) :
  never_returns (BaseTaskInstanceManager_list parse str self query_filters).
Proof. intro t. reflexivity. Qed.

Lemma task_instance_create_never_returns
    (parse : string -> option datetime) (self : Manager)
    (task_type_id task_queue_id arguments name : pyval) :
  never_returns
    (BaseTaskInstanceManager_create parse self
       task_type_id task_queue_id arguments name).
Proof.
  unfold BaseTaskInstanceManager_create. cbv zeta. skip 4.
  apply never_returns_bind_l. apply validate_call_rejects_response_text.
Qed.

(** C9.  None of [BaseTaskTypeManager.create],
    [BaseTaskInstanceManager.get], [BaseTaskInstanceManager.list] and
    [BaseTaskInstanceManager.create] can return a model instance, for
    every manager, every argument and every behaviour of the session.
    With a session that answers (whatever the status), the two [create]
    methods post and then raise [TypeError] on the [response_text]
    keyword of the validation call; [get] issues its request and raises
    [NameError] on [reponse] while the arguments of the validation call
    are evaluated; [list] raises [NameError] before the validation call
    too, already on the undefined name [page], ahead of its request and
    of its own reference to [reponse] (which is undefined in the module
    all the same). *)
Theorem C9_no_operation_returns_a_model :
  forall (parse : string -> option datetime) (str : pyval -> string),
    (forall self name command_to_run description environment_variables
            required_arguments required_arguments_default_values,
        never_returns
          (BaseTaskTypeManager_create parse self name command_to_run
             description environment_variables required_arguments
             required_arguments_default_values))
    /\ (forall self uuid,
           never_returns (BaseTaskInstanceManager_get parse str self uuid))
    /\ (forall self query_filters,
           never_returns
             (BaseTaskInstanceManager_list parse str self query_filters))
    /\ (forall self task_type_id task_queue_id arguments name,
           never_returns
             (BaseTaskInstanceManager_create parse self
                task_type_id task_queue_id arguments name))
    /\ (forall base answer name command_to_run description,
           result (BaseTaskTypeManager_create parse
                     (task_type_manager (answering base answer))
                     name command_to_run description PNone PNone PNone)
           = Raise (TypeError
               "validate_request_success() got an unexpected keyword argument 'response_text'"))
    /\ (forall base answer task_type_id task_queue_id name,
           result (BaseTaskInstanceManager_create parse
                     (task_instance_manager (answering base answer))
                     task_type_id task_queue_id PNone name)
           = Raise (TypeError
               "validate_request_success() got an unexpected keyword argument 'response_text'"))
    /\ (forall base answer uuid,
           run (BaseTaskInstanceManager_get parse str
                  (task_instance_manager (answering base answer)) uuid)
           = (Raise (NameError "reponse"), [GET (base ++ "NotImplemented")]))
    /\ (forall base answer query_filters,
           run (BaseTaskInstanceManager_list parse str
                  (task_instance_manager (answering base answer))
                  query_filters)
           = (Raise (NameError "page"), []))
    /\ (forall t,
           load_global base_task_instance_globals "reponse" t
           = (Raise (NameError "reponse"), t)).
Proof.
  intros parse str.
  split; [intros; apply task_type_create_never_returns |].
  split; [intros; apply task_instance_get_never_returns |].
  split; [intros; apply task_instance_list_never_returns |].
  split; [intros; apply task_instance_create_never_returns |].
  repeat split; intros; reflexivity.
Qed.

(* ================================================================= *)
(** ** The payload of [create] *)

(** C7.  [BaseTaskTypeManager.create] and [BaseTaskInstanceManager.create]
    hand the session one POST whose payload holds every structured field
    as JSON text: the caller's value encoded by [json.dumps], and for an
    argument left [None] the encoding of the empty container, the text
    [[]] for the two lists and the text [{}] for the two dicts, never
    [None] and never a missing key. *)
Theorem C7_create_posts_json_encoded_fields :
  forall (parse : string -> option datetime) (client : Client)
         (name command_to_run description environment_variables
          required_arguments required_arguments_default_values : pyval)
         (task_type_id task_queue_id arguments instance_name : pyval)
         (ev ra rd args : string),
    json_dumps (or_default environment_variables (PList [])) = Return ev ->
    json_dumps (or_default required_arguments (PList [])) = Return ra ->
    json_dumps (or_default required_arguments_default_values (PDict []))
    = Return rd ->
    json_dumps (if negb (truthy arguments) then PDict [] else arguments)
    = Return args ->
    requests (BaseTaskTypeManager_create parse (task_type_manager client)
                name command_to_run description environment_variables
                required_arguments required_arguments_default_values)
    = [ POST (base_api_url client ++ "NotImplemented")
          [ ("name", name);
            ("description", description);
            ("command_to_run", command_to_run);
            ("environment_variables", PStr ev);
            ("required_arguments", PStr ra);
            ("required_arguments_default_values", PStr rd) ] ]
    /\ (environment_variables = PNone -> ev = "[]")
    /\ (required_arguments = PNone -> ra = "[]")
    /\ (required_arguments_default_values = PNone -> rd = "{}")
    /\ requests (BaseTaskInstanceManager_create parse
                   (task_instance_manager client)
                   task_type_id task_queue_id arguments instance_name)
       = [ POST (base_api_url client ++ "NotImplemented")
             [ ("name", instance_name);
               ("arguments", PStr args);
               ("task_type", task_type_id);
               ("task_queue", task_queue_id) ] ]
    /\ (arguments = PNone -> args = "{}").
Proof.
  intros parse client name command_to_run description environment_variables
         required_arguments required_arguments_default_values
         task_type_id task_queue_id arguments instance_name ev ra rd args
         Hev Hra Hrd Hargs.
  repeat split.
  - unfold requests, run, BaseTaskTypeManager_create. cbv zeta.
    unfold bind at 1 2 3 4 5. simpl.
    rewrite Hev, Hra, Hrd. unfold lift, bind, http_post, log.
    destruct (session_post (session client) _ _); reflexivity.
  - intros ->. simpl in Hev. congruence.
  - intros ->. simpl in Hra. congruence.
  - intros ->. simpl in Hrd. congruence.
  - unfold requests, run, BaseTaskInstanceManager_create. cbv zeta.
    unfold bind at 1 2 3. simpl.
    rewrite Hargs. unfold lift, bind, http_post, log.
    destruct (session_post (session client) _ _); reflexivity.
  - intros ->. simpl in Hargs. congruence.
Qed.

(* ================================================================= *)
(** ** Dictionaries under update, and calls that bind *)

Lemma dict_get_set_same (d : dict) (k : string) (v : pyval) :
  dict_get (dict_set d k v) k = Some v.
Proof.
  induction d as [| [k0 v0] d IH]; simpl.
  - now rewrite String.eqb_refl.
  - destruct (String.eqb k k0) eqn:E; simpl; rewrite E; [reflexivity | exact IH].
Qed.

Lemma dict_get_set_other (d : dict) (k k' : string) (v : pyval) :
  k <> k' -> dict_get (dict_set d k v) k' = dict_get d k'.
Proof.
  intro Hne. induction d as [| [k0 v0] d IH]; simpl.
  - destruct (String.eqb_spec k' k); [congruence | reflexivity].
  - destruct (String.eqb_spec k k0) as [-> | Hk]; simpl.
    + destruct (String.eqb_spec k' k0); [congruence | reflexivity].
    + destruct (String.eqb k' k0); [reflexivity | exact IH].
Qed.

(** Assigning to a key that is present keeps the keys and their order. *)
Lemma dict_set_present_keys (d : dict) (k : string) (v : pyval) :
  dict_contains d k = true -> dict_keys (dict_set d k v) = dict_keys d.
Proof.
  unfold dict_contains.
  induction d as [| [k0 v0] d IH]; simpl; intro H.
  - discriminate.
  - destruct (String.eqb k k0); simpl; [reflexivity | now rewrite IH].
Qed.

Lemma dict_contains_ext (d d' : dict) (k : string) :
  dict_keys d = dict_keys d' -> dict_contains d k = dict_contains d' k.
Proof.
  unfold dict_contains. revert d'.
  induction d as [| [k0 v0] d IH]; intros [| [k1 v1] d'] H; simpl in *;
    try discriminate; try reflexivity.
  inversion H; subst.
  destruct (String.eqb k k1); [reflexivity | now apply IH].
Qed.

Lemma keys_unique_ext (d d' : dict) :
  dict_keys d = dict_keys d' -> keys_unique d = keys_unique d'.
Proof.
  revert d'.
  induction d as [| [k0 v0] d IH]; intros [| [k1 v1] d'] H; simpl in *;
    try discriminate; try reflexivity.
  inversion H; subst.
  now rewrite (dict_contains_ext d d' k1), (IH d').
Qed.

Lemma forallb_pointwise {A : Type} (f g : A -> bool) (l : list A) :
  (forall x, f x = g x) -> forallb f l = forallb g l.
Proof.
  intro H. induction l as [| x l IH]; simpl; [reflexivity | now rewrite H, IH].
Qed.

Lemma task_instance_response_ext (d d' : dict) :
  dict_keys d = dict_keys d' ->
  task_instance_response d = task_instance_response d'.
Proof.
  intro H. unfold task_instance_response.
  rewrite (keys_unique_ext d d' H), H.
  f_equal. apply forallb_pointwise. intro p.
  now rewrite (dict_contains_ext d d' p H).
Qed.

Lemma keys_unique_not_before (bound rest : dict) (k : string) (v : pyval) :
  keys_unique (bound ++ (k, v) :: rest)%list = true ->
  dict_contains bound k = false.
Proof.
  induction bound as [| [k0 v0] bound IH]; simpl; intro H.
  - reflexivity.
  - apply andb_true_iff in H. destruct H as [Hk0 Hu].
    unfold dict_contains. simpl.
    destruct (String.eqb_spec k k0) as [-> | Hne].
    + rewrite dict_contains_middle in Hk0. discriminate.
    + apply IH. exact Hu.
Qed.

(** Keywords that are distinct parameter names are all accepted. *)
Lemma bind_keywords_accepts (s : signature) (kw bound : dict) :
  forallb (fun k => mem k (sig_params s)) (dict_keys kw) = true ->
  keys_unique (bound ++ kw)%list = true ->
  bind_keywords s bound kw = Return (bound ++ kw)%list.
Proof.
  revert bound.
  induction kw as [| [k v] kw IH]; intros bound Hin Hu; simpl in *.
  - now rewrite app_nil_r.
  - apply andb_true_iff in Hin. destruct Hin as [Hk Hin].
    rewrite Hk. simpl.
    rewrite (keys_unique_not_before bound kw k v Hu).
    assert (E : (bound ++ (k, v) :: kw)%list = ((bound ++ [(k, v)]) ++ kw)%list)
      by now rewrite <- app_assoc.
    rewrite E in Hu |- *. apply IH; assumption.
Qed.


(** Parameters that all have a keyword or a default are all bound. *)
Lemma fill_defaults_accepts (s : signature) (bound : dict)
    (params : list string) :
  forallb (fun p => dict_contains bound p
                    || dict_contains (sig_defaults s) p) params = true ->
  exists env,
    fill_defaults s params bound = Return env
    /\ forall p, In p params -> dict_get env p = bound_value s bound p.
Proof.
  induction params as [| p ps IH]; simpl; intro H.
  - exists []. split; [reflexivity | intros p []].
  - apply andb_true_iff in H. destruct H as [Hp Hps].
    destruct (IH Hps) as [env [Henv Hget]]. rewrite Henv.
    assert (Hv : exists v, bound_value s bound p = Some v).
    { unfold bound_value, dict_contains in *.
      destruct (dict_get bound p) as [v |]; [now exists v |].
      destruct (dict_get (sig_defaults s) p) as [v |]; [now exists v |].
      discriminate. }
    destruct Hv as [v Hv]. unfold bound_value in Hv. rewrite Hv.
    exists ((p, v) :: env). split; [reflexivity |].
    intros q [-> | Hq]; simpl.
    + rewrite String.eqb_refl. unfold bound_value. now rewrite Hv.
    + destruct (String.eqb_spec q p) as [-> | Hne].
      * unfold bound_value. now rewrite Hv.
      * apply Hget. exact Hq.
Qed.

(** A call with keywords only succeeds when the keywords are distinct
    parameter names and cover the parameters without default. *)
Lemma bind_args_keywords_only (s : signature) (kw : dict) :
  keys_unique kw = true ->
  forallb (fun k => mem k (sig_params s)) (dict_keys kw) = true ->
  forallb (fun p => dict_contains kw p
                    || dict_contains (sig_defaults s) p) (sig_params s)
  = true ->
  exists env,
    bind_args s [] kw = Return env
    /\ forall p, In p (sig_params s) -> dict_get env p = bound_value s kw p.
Proof.
  intros Hu Hin Hall. unfold bind_args.
  rewrite combine_nil, (bind_keywords_accepts s kw [] Hin Hu). simpl.
  apply fill_defaults_accepts. exact Hall.
Qed.

Lemma construct_task_instance (kw env : dict) (t : trace) :
  bind_args task_instance_signature [] kw = Return env ->
  construct BaseTaskInstance [] kw t
  = (Return (PInstance BaseTaskInstance
               [ ("name", arg env "name");
                 ("uuid", arg env "uuid");
                 ("state", arg env "state");
                 ("user", arg env "user");
                 ("task_queue", arg env "task_queue");
                 ("task_type", arg env "task_type");
                 ("datetime_created", arg env "datetime_created");
                 ("datetime_finished", arg env "datetime_finished");
                 ("arguments", arg env "arguments") ]), t).
Proof.
  intro H. unfold construct, call_found, bind.
  change (class_getattr BaseTaskInstance "__init__")
    with (Some (BaseTaskInstance, Method task_instance_signature)).
  cbn [signature_of]. unfold lift. rewrite H. reflexivity.
Qed.

(* ================================================================= *)
(** ** Response parsing for task instances *)

(** C5.  For a response dictionary the task instance constructor
    accepts, [response_data_to_model_instance] returns an instance whose
    [datetime_created] is the parsed date-time of the response, and whose
    [datetime_finished] is the parsed date-time when the response holds a
    true value there, and the response's own value otherwise: a null
    [datetime_finished] stays [None]. *)
Theorem C5_task_instance_datetimes :
  forall (parse : string -> option datetime) (d : dict)
         (s : string) (created : datetime) (f finished : pyval),
    task_instance_response d = true ->
    dict_get d "datetime_created" = Some (PStr s) ->
    parse s = Some created ->
    dict_get d "datetime_finished" = Some f ->
    finished_attribute parse f = Some finished ->
    exists inst,
      run (BaseTaskInstanceManager_response_data_to_model_instance
             parse BaseTaskInstanceManager (PDict d))
      = (Return inst, [])
      /\ getattr inst "datetime_created" = Some (PDatetime created)
      /\ getattr inst "datetime_finished" = Some finished
      /\ (f = PNone -> getattr inst "datetime_finished" = Some PNone)
      /\ (truthy f = false -> finished = f)
      /\ (truthy f = true -> exists s' dt, f = PStr s' /\ parse s' = Some dt
                                          /\ finished = PDatetime dt).
Proof.
  intros parse d s created f finished Hwf Hc Hparse Hf Hfin.
  set (d1 := dict_set d "datetime_created" (PDatetime created)).
  set (d2 := if truthy f then dict_set d1 "datetime_finished" finished else d1).
  assert (Hf1 : dict_get d1 "datetime_finished" = Some f).
  { unfold d1. rewrite dict_get_set_other; [exact Hf | discriminate]. }
  assert (Hk1 : dict_keys d1 = dict_keys d).
  { unfold d1. apply dict_set_present_keys. unfold dict_contains. now rewrite Hc. }
  assert (Hk2 : dict_keys d2 = dict_keys d).
  { unfold d2. destruct (truthy f); [| exact Hk1].
    rewrite dict_set_present_keys; [exact Hk1 |].
    unfold dict_contains. now rewrite Hf1. }
  assert (Hc2 : dict_get d2 "datetime_created" = Some (PDatetime created)).
  { unfold d2. destruct (truthy f).
    - rewrite dict_get_set_other; [| discriminate].
      unfold d1. apply dict_get_set_same.
    - unfold d1. apply dict_get_set_same. }
  assert (Hf2 : dict_get d2 "datetime_finished" = Some finished).
  { unfold d2. unfold finished_attribute in Hfin.
    destruct (truthy f).
    - apply dict_get_set_same.
    - inversion Hfin; subst. exact Hf1. }
  assert (Hwf2 : task_instance_response d2 = true).
  { now rewrite (task_instance_response_ext d2 d Hk2). }
  unfold task_instance_response in Hwf2.
  apply andb_true_iff in Hwf2. destruct Hwf2 as [Hwf2 Hall].
  apply andb_true_iff in Hwf2. destruct Hwf2 as [Hu Hin].
  destruct (bind_args_keywords_only task_instance_signature d2 Hu Hin Hall)
    as [env [Henv Hget]].
  assert (Hrun :
    run (BaseTaskInstanceManager_response_data_to_model_instance
           parse BaseTaskInstanceManager (PDict d))
    = construct BaseTaskInstance [] d2 []).
  { unfold run, BaseTaskInstanceManager_response_data_to_model_instance.
    unfold bind at 1. unfold getitem at 1, subscript. rewrite Hc.
    unfold ret at 1. unfold bind at 1. unfold dateutil_parser_parse at 1.
    rewrite Hparse. unfold ret at 1. unfold bind at 1.
    unfold setitem at 1. unfold ret at 1. fold d1.
    unfold bind at 1. unfold getitem at 1, subscript. rewrite Hf1.
    unfold ret at 1. unfold bind at 1.
    unfold finished_attribute in Hfin. unfold d2.
    destruct (truthy f) eqn:Ht.
    - destruct f as [| | | s' | | | | |]; try discriminate.
      destruct (parse s') as [dt |] eqn:Hp; [| discriminate].
      inversion Hfin; subst.
      unfold bind at 1. unfold getitem at 1, subscript. rewrite Hf1.
      unfold ret at 1. unfold bind at 1. unfold dateutil_parser_parse at 1.
      rewrite Hp. reflexivity.
    - reflexivity. }
  rewrite Hrun, (construct_task_instance d2 env [] Henv).
  eexists. split; [reflexivity |].
  assert (Ec : arg env "datetime_created" = PDatetime created).
  { unfold arg. rewrite Hget; [| simpl; tauto].
    unfold bound_value. now rewrite Hc2. }
  assert (Ef : arg env "datetime_finished" = finished).
  { unfold arg. rewrite Hget; [| simpl; tauto].
    unfold bound_value. now rewrite Hf2. }
  simpl. rewrite Ec, Ef.
  split; [reflexivity |]. split; [reflexivity |].
  unfold finished_attribute in Hfin.
  split; [| split].
  - intros ->. simpl in Hfin. now inversion Hfin.
  - intro Ht. rewrite Ht in Hfin. now inversion Hfin.
  - intro Ht. rewrite Ht in Hfin.
    destruct f as [| | | s' | | | | |]; try discriminate.
    destruct (parse s') as [dt |] eqn:Hp; [| discriminate].
    inversion Hfin; subst. now exists s', dt.
Qed.

Lemma C5_task_instance_datetimes_witness :
  task_instance_response sample_instance_response = true
  /\ dict_get sample_instance_response "datetime_created"
     = Some (PStr "2018-07-04T12:30:00Z")
  /\ sample_parse "2018-07-04T12:30:00Z" = Some sample_datetime
  /\ dict_get sample_instance_response "datetime_finished" = Some PNone
  /\ finished_attribute sample_parse PNone = Some PNone
  /\ exists inst,
       run (BaseTaskInstanceManager_response_data_to_model_instance
              sample_parse BaseTaskInstanceManager
              (PDict sample_instance_response))
       = (Return inst, [])
       /\ getattr inst "datetime_created" = Some (PDatetime sample_datetime)
       /\ getattr inst "datetime_finished" = Some PNone
       /\ (PNone = PNone -> getattr inst "datetime_finished" = Some PNone)
       /\ (truthy PNone = false -> PNone = PNone)
       /\ (truthy PNone = true ->
           exists s' dt, PNone = PStr s' /\ sample_parse s' = Some dt
                         /\ PNone = PDatetime dt).
Proof.
  repeat (split; [reflexivity |]).
  apply (C5_task_instance_datetimes sample_parse sample_instance_response
           "2018-07-04T12:30:00Z" sample_datetime PNone PNone);
    reflexivity.
Defined.

(** On the sample response every attribute of the instance is the field
    of the response, the creation time parsed. *)
Example task_instance_sample_parses :
  run (BaseTaskInstanceManager_response_data_to_model_instance
         sample_parse BaseTaskInstanceManager
         (PDict sample_instance_response))
  = (Return (PInstance BaseTaskInstance
       [ ("name", PStr "nightly");
         ("uuid", PStr "6f6a2d6c");
         ("state", PStr "running");
         ("user", PStr "alice");
         ("task_queue", PInt 1);
         ("task_type", PInt 2);
         ("datetime_created", PDatetime sample_datetime);
         ("datetime_finished", PNone);
         ("arguments", PDict [("n", PInt 3)]) ]), []).
Proof. reflexivity. Qed.

(** A response without the [datetime_finished] key is not accepted: the
    truth test subscripts the dictionary. *)
Lemma task_instance_response_needs_datetime_finished
    (parse : string -> option datetime) (d : dict) (s : string)
    (created : datetime) :
  dict_get d "datetime_created" = Some (PStr s) ->
  parse s = Some created ->
  dict_get d "datetime_finished" = None ->
  run (BaseTaskInstanceManager_response_data_to_model_instance
         parse BaseTaskInstanceManager (PDict d))
  = (Raise (KeyError "datetime_finished"), []).
Proof.
  intros Hc Hparse Hf.
  unfold run, BaseTaskInstanceManager_response_data_to_model_instance.
  unfold bind at 1. unfold getitem at 1, subscript. rewrite Hc.
  unfold ret at 1. unfold bind at 1. unfold dateutil_parser_parse at 1.
  rewrite Hparse. unfold ret at 1. unfold bind at 1.
  unfold setitem at 1. unfold ret at 1.
  unfold bind at 1. unfold getitem at 1, subscript.
  rewrite dict_get_set_other; [| discriminate]. rewrite Hf. reflexivity.
Qed.

Lemma C7_create_posts_json_encoded_fields_witness :
  json_dumps (or_default PNone (PList [])) = Return "[]"
  /\ json_dumps (or_default (PList [PStr "epochs"]) (PList []))
     = Return ("[" ++ json_string "epochs" ++ "]")
  /\ json_dumps (or_default PNone (PDict [])) = Return "{}"
  /\ json_dumps (if negb (truthy PNone) then PDict [] else PNone)
     = Return "{}"
  /\ requests (BaseTaskTypeManager_create sample_parse
                 (task_type_manager (sample_client 201))
                 (PStr "train") (PStr "python train.py") empty_str
                 PNone (PList [PStr "epochs"]) PNone)
     = [ POST "https://saltant.example/api/NotImplemented"
           [ ("name", PStr "train");
             ("description", empty_str);
             ("command_to_run", PStr "python train.py");
             ("environment_variables", PStr "[]");
             ("required_arguments", PStr ("[" ++ json_string "epochs" ++ "]"));
             ("required_arguments_default_values", PStr "{}") ] ]
  /\ (PNone = PNone -> "[]" = "[]")
  /\ (PList [PStr "epochs"] = PNone
      -> "[" ++ json_string "epochs" ++ "]" = "[]")
  /\ (PNone = PNone -> "{}" = "{}")
  /\ requests (BaseTaskInstanceManager_create sample_parse
                 (task_instance_manager (sample_client 201))
                 (PInt 2) (PInt 1) PNone (PStr "nightly"))
     = [ POST "https://saltant.example/api/NotImplemented"
           [ ("name", PStr "nightly");
             ("arguments", PStr "{}");
             ("task_type", PInt 2);
             ("task_queue", PInt 1) ] ]
  /\ (PNone = PNone -> "{}" = "{}").
Proof.
  repeat (split; [reflexivity |]).
  apply (C7_create_posts_json_encoded_fields sample_parse (sample_client 201)
           (PStr "train") (PStr "python train.py") empty_str
           PNone (PList [PStr "epochs"]) PNone
           (PInt 2) (PInt 1) PNone (PStr "nightly")
           "[]" ("[" ++ json_string "epochs" ++ "]") "{}" "{}");
    reflexivity.
Defined.

(* ================================================================= *)
(** * Further properties *)

(** ** Computations that fail without a request *)

Lemma fails_with_raise {A : Type} (P : pyexc -> Prop) (e : pyexc) :
  P e -> fails_with P (@raise A e).
Proof. intros H t. exists e. split; [reflexivity | exact H]. Qed.

Lemma fails_with_bind_l {A B : Type} (P : pyexc -> Prop)
    (m : M A) (f : A -> M B) :
  fails_with P m -> fails_with P (bind m f).
Proof.
  intros Hm t. destruct (Hm t) as [e [E He]].
  exists e. unfold bind. rewrite E. split; [reflexivity | exact He].
Qed.

Lemma fails_with_bind {A B : Type} (P : pyexc -> Prop)
    (m : M A) (f : A -> M B) :
  quiet P m -> (forall a, fails_with P (f a)) -> fails_with P (bind m f).
Proof.
  intros Hm Hf t. unfold bind.
  destruct (Hm t) as [[a E] | [e [E He]]]; rewrite E.
  - apply Hf.
  - exists e. split; [reflexivity | exact He].
Qed.

Lemma quiet_ret {A : Type} (P : pyexc -> Prop) (a : A) : quiet P (ret a).
Proof. intro t. left. now exists a. Qed.

Lemma quiet_raise {A : Type} (P : pyexc -> Prop) (e : pyexc) :
  P e -> quiet P (@raise A e).
Proof. intros H t. right. exists e. split; [reflexivity | exact H]. Qed.

Lemma quiet_bind {A B : Type} (P : pyexc -> Prop) (m : M A) (f : A -> M B) :
  quiet P m -> (forall a, quiet P (f a)) -> quiet P (bind m f).
Proof.
  intros Hm Hf t. unfold bind.
  destruct (Hm t) as [[a E] | [e [E He]]]; rewrite E.
  - apply Hf.
  - right. exists e. split; [reflexivity | exact He].
Qed.

Lemma quiet_object_attr (obj : pyval) (name : string) :
  quiet is_AttributeError (object_attr obj name).
Proof.
  unfold object_attr. destruct (getattr obj name).
  - apply quiet_ret.
  - apply quiet_raise. eexists. reflexivity.
Qed.

Lemma quiet_update_method (d : pyval) (other : dict) :
  quiet is_AttributeError (update_method d other).
Proof.
  destruct d; simpl; try (apply quiet_raise; eexists; reflexivity).
  apply quiet_ret.
Qed.

(* ================================================================= *)
(** ** [ContainerTaskTypeManager.update] *)

(** X1.  Given extra data that is [None] or a dict, [update] can only
    raise [AttributeError], and it sends nothing: the attributes it
    reads from [task_type] may be missing, and when they are all there
    it delegates to a parent [update] that no class defines. *)
Theorem X1_update_raises_AttributeError_without_request :
  forall (self : Manager) (task_type : pyval)
         (extra_data_to_put : option dict),
    fails_with is_AttributeError
      (ContainerTaskTypeManager_update self task_type
         (optional_dict extra_data_to_put)).
Proof.
  intros self task_type extra_data_to_put.
  unfold ContainerTaskTypeManager_update. cbv zeta.
  do 4 (apply fails_with_bind; [apply quiet_object_attr | intro]).
  apply fails_with_bind; [apply quiet_update_method | intro].
  intro t. unfold call_found.
  destruct (manager_class self); simpl;
    (eexists; split; [reflexivity | eexists; reflexivity]).
Qed.

(* ================================================================= *)
(** ** [BaseTaskTypeManager.get] and the inherited [list] *)

(** X2.  [BaseTaskTypeManager.get] never returns a task type and never
    sends a request, whatever the manager and the arguments: the guard
    raises, or the lookup by id or by name raises. *)
Theorem X2_get_task_type_never_returns_nor_requests :
  forall (self : Manager) (id name : pyval),
    fails_with any_exception (BaseTaskTypeManager_get self id name).
Proof.
  intros self id name t. unfold BaseTaskTypeManager_get.
  destruct (negb (xorb (is_None id) (is_None name))).
  - eexists. split; [reflexivity | exact I].
  - destruct (negb (is_None id)); unfold call_found, bind;
      destruct (manager_class self); simpl;
        (eexists; split; [reflexivity | exact I]).
Qed.

(** X3.  Looking a task type up by name hands [filters=] to the
    inherited [ModelManager.list], which takes no argument: on every
    manager class derived from [BaseTaskTypeManager] the call raises
    [TypeError] and no request is sent. *)
Theorem X3_get_by_name_raises_TypeError :
  forall (cls : class) (client : Client) (name : pyval),
    issubclass cls BaseTaskTypeManager = true ->
    is_None name = false ->
    run (BaseTaskTypeManager_get (mkManager cls client) PNone name)
    = (Raise (TypeError "list() got an unexpected keyword argument 'filters'"),
       []).
Proof.
  intros cls client name Hsub Hname.
  unfold BaseTaskTypeManager_get. simpl is_None at 1. rewrite Hname.
  destruct cls; simpl in Hsub; try discriminate; reflexivity.
Qed.

Lemma X3_get_by_name_raises_TypeError_witness :
  issubclass ContainerTaskTypeManager BaseTaskTypeManager = true
  /\ is_None (PStr "train") = false
  /\ run (BaseTaskTypeManager_get
            (mkManager ContainerTaskTypeManager (sample_client 200))
            PNone (PStr "train"))
     = (Raise (TypeError "list() got an unexpected keyword argument 'filters'"),
        []).
Proof.
  split; [reflexivity |]. split; [reflexivity |].
  apply (X3_get_by_name_raises_TypeError ContainerTaskTypeManager
           (sample_client 200) (PStr "train")); reflexivity.
Defined.

(** X4.  Task type managers inherit [list] from [ModelManager]: called
    without arguments it raises [NotImplementedError], called with any
    argument it raises [TypeError]; no request is sent either way. *)
Theorem X4_task_types_cannot_be_listed :
  forall (parse : string -> option datetime) (str : pyval -> string)
         (cls : class) (client : Client) (pos : list pyval) (kw : dict),
    issubclass cls BaseTaskTypeManager = true ->
    exists e,
      run (call_method parse str (mkManager cls client) "list" pos kw)
      = (Raise e, [])
      /\ exc_name e
         = match pos, kw with
           | [], [] => "NotImplementedError"
           | _, _ => "TypeError"
           end.
Proof.
  intros parse str cls client pos kw Hsub.
  destruct cls; simpl in Hsub; try discriminate;
    (destruct kw as [| [k v] kw];
     [ destruct pos as [| x pos]; eexists; split; reflexivity
     | eexists; split; [reflexivity | destruct pos; reflexivity] ]).
Qed.

Lemma X4_task_types_cannot_be_listed_witness :
  issubclass BaseTaskTypeManager BaseTaskTypeManager = true
  /\ exists e,
       run (call_method sample_parse sample_str
              (mkManager BaseTaskTypeManager (sample_client 200))
              "list" [] [])
       = (Raise e, [])
       /\ exc_name e = "NotImplementedError".
Proof.
  split; [reflexivity |].
  apply (X4_task_types_cannot_be_listed sample_parse sample_str
           BaseTaskTypeManager (sample_client 200) [] []).
  reflexivity.
Defined.

(* ================================================================= *)
(** ** Calls that return: what the arguments were *)

Lemma dict_contains_snoc (d : dict) (k k' : string) (v : pyval) :
  dict_contains (d ++ [(k, v)])%list k'
  = dict_contains d k' || String.eqb k' k.
Proof.
  unfold dict_contains. induction d as [| [k0 v0] d IH]; simpl.
  - destruct (String.eqb k' k); reflexivity.
  - destruct (String.eqb k' k0); [reflexivity | exact IH].
Qed.

Lemma keys_unique_snoc (d : dict) (k : string) (v : pyval) :
  keys_unique d = true -> dict_contains d k = false ->
  keys_unique (d ++ [(k, v)])%list = true.
Proof.
  induction d as [| [k0 v0] d IH]; simpl; intros Hu Hk.
  - reflexivity.
  - apply andb_true_iff in Hu. destruct Hu as [Hk0 Hu].
    unfold dict_contains in Hk. simpl in Hk.
    destruct (String.eqb_spec k k0) as [-> | Hne]; [discriminate |].
    rewrite dict_contains_snoc. apply negb_true_iff in Hk0. rewrite Hk0.
    simpl. destruct (String.eqb_spec k0 k) as [E | _]; [congruence |].
    simpl. apply IH; assumption.
Qed.

(** Keywords are accepted only when they are distinct parameter names. *)
Lemma bind_keywords_returns (s : signature) (kw bound b : dict) :
  bind_keywords s bound kw = Return b ->
  keys_unique bound = true ->
  b = (bound ++ kw)%list
  /\ forallb (fun k => mem k (sig_params s)) (dict_keys kw) = true
  /\ keys_unique (bound ++ kw)%list = true.
Proof.
  revert bound. induction kw as [| [k v] kw IH]; intros bound H Hu; simpl in H.
  - inversion H; subst. rewrite app_nil_r. repeat split; auto.
  - destruct (mem k (sig_params s)) eqn:Hk; simpl in H; [| discriminate].
    destruct (dict_contains bound k) eqn:Hc; [discriminate |].
    destruct (IH _ H (keys_unique_snoc bound k v Hu Hc)) as [Hb [Hin Hu']].
    rewrite <- app_assoc in Hb, Hu'. simpl in Hb, Hu'.
    repeat split; try assumption. simpl. now rewrite Hk.
Qed.

Lemma fill_defaults_returns (s : signature) (bound env : dict)
    (params : list string) :
  fill_defaults s params bound = Return env ->
  forallb (fun p => dict_contains bound p
                    || dict_contains (sig_defaults s) p) params = true
  /\ forall p, In p params -> dict_get env p = bound_value s bound p.
Proof.
  revert env. induction params as [| p ps IH]; intros env H; simpl in H.
  - split; [reflexivity | intros p []].
  - fold (bound_value s bound p) in H.
    destruct (bound_value s bound p) as [v |] eqn:Hv; [| discriminate].
    destruct (fill_defaults s ps bound) as [r |] eqn:Hr; [| discriminate].
    inversion H; subst. destruct (IH r eq_refl) as [Hall Hget].
    split.
    + simpl. rewrite Hall, andb_true_r.
      unfold bound_value, dict_contains in *.
      destruct (dict_get bound p); [reflexivity |].
      now rewrite Hv.
    + intros q [-> | Hq]; simpl.
      * now rewrite String.eqb_refl.
      * destruct (String.eqb_spec q p) as [-> | Hne]; [now rewrite Hv |].
        apply Hget. exact Hq.
Qed.

(** A keyword-only call binds exactly when the keywords are accepted by
    the signature. *)
Lemma bind_args_returns (s : signature) (kw env : dict) :
  bind_args s [] kw = Return env ->
  accepted_by s kw = true
  /\ forall p, In p (sig_params s) -> dict_get env p = bound_value s kw p.
Proof.
  unfold bind_args. rewrite combine_nil. intro H.
  destruct (bind_keywords s [] kw) as [b |] eqn:Hb; [| discriminate].
  destruct (bind_keywords_returns s kw [] b Hb eq_refl) as [-> [Hin Hu]].
  simpl in H, Hu.
  destruct (fill_defaults_returns s kw env (sig_params s) H) as [Hall Hget].
  split; [| exact Hget].
  unfold accepted_by. now rewrite Hu, Hin, Hall.
Qed.

Lemma bind_args_accepts (s : signature) (kw : dict) :
  accepted_by s kw = true ->
  exists env,
    bind_args s [] kw = Return env
    /\ forall p, In p (sig_params s) -> dict_get env p = bound_value s kw p.
Proof.
  unfold accepted_by. intro H.
  apply andb_true_iff in H. destruct H as [H Hall].
  apply andb_true_iff in H. destruct H as [Hu Hin].
  now apply bind_args_keywords_only.
Qed.

Lemma bind_args_rejects (s : signature) (kw : dict) :
  accepted_by s kw = false ->
  exists msg, bind_args s [] kw = Raise (TypeError msg).
Proof.
  intro H. destruct (bind_args s [] kw) as [env | e] eqn:E.
  - destruct (bind_args_returns s kw env E) as [Hacc _]. congruence.
  - destruct (bind_args_TypeError s [] kw e E) as [msg ->]. now exists msg.
Qed.

(* ================================================================= *)
(** ** Constructing the models *)

Lemma construct_task_type (kw env : dict) (t : trace) :
  bind_args task_type_signature [] kw = Return env ->
  construct BaseTaskType [] kw t
  = (Return (PInstance BaseTaskType
               [ ("id", arg env "id");
                 ("name", arg env "name");
                 ("description", arg env "description");
                 ("user", arg env "user");
                 ("datetime_created", arg env "datetime_created");
                 ("command_to_run", arg env "command_to_run");
                 ("environment_variables", arg env "environment_variables");
                 ("required_arguments", arg env "required_arguments");
                 ("required_arguments_default_values",
                  arg env "required_arguments_default_values") ]), t).
Proof.
  intro H. unfold construct, call_found, bind.
  change (class_getattr BaseTaskType "__init__")
    with (Some (BaseTaskType, Method task_type_signature)).
  cbn [signature_of]. unfold lift. rewrite H. reflexivity.
Qed.

Lemma construct_task_type_raises (kw : dict) (e : pyexc) (t : trace) :
  bind_args task_type_signature [] kw = Raise e ->
  construct BaseTaskType [] kw t = (Raise e, t).
Proof.
  intro H. unfold construct, call_found, bind.
  change (class_getattr BaseTaskType "__init__")
    with (Some (BaseTaskType, Method task_type_signature)).
  cbn [signature_of]. unfold lift. rewrite H. reflexivity.
Qed.

Lemma construct_task_instance_raises (kw : dict) (e : pyexc) (t : trace) :
  bind_args task_instance_signature [] kw = Raise e ->
  construct BaseTaskInstance [] kw t = (Raise e, t).
Proof.
  intro H. unfold construct, call_found, bind.
  change (class_getattr BaseTaskInstance "__init__")
    with (Some (BaseTaskInstance, Method task_instance_signature)).
  cbn [signature_of]. unfold lift. rewrite H. reflexivity.
Qed.

Lemma arg_bound (s : signature) (kw env : dict) (p : string) :
  (forall q, In q (sig_params s) -> dict_get env q = bound_value s kw q) ->
  In p (sig_params s) ->
  accepted_by s kw = true ->
  Some (arg env p) = bound_value s kw p.
Proof.
  intros Hget Hp Hacc. unfold arg. rewrite (Hget p Hp).
  unfold accepted_by in Hacc. apply andb_true_iff in Hacc.
  destruct Hacc as [_ Hall].
  rewrite forallb_forall in Hall. specialize (Hall p Hp).
  unfold bound_value, dict_contains in *.
  destruct (dict_get kw p); [reflexivity |].
  destruct (dict_get (sig_defaults s) p); [reflexivity | discriminate].
Qed.

Ltac each_parameter H :=
  simpl in H;
  repeat (destruct H as [H | H]; [subst |]); try contradiction.

(** X5.  [BaseTaskType] called with keywords returns an instance exactly
    when the keywords are the nine field names, each once; the instance
    then holds every keyword's value under the attribute of that name.
    With any other keywords the call raises [TypeError]. *)
Theorem X5_task_type_constructor_stores_its_keywords :
  forall (kw : dict),
    exists o,
      run (construct BaseTaskType [] kw) = (o, [])
      /\ match o with
         | Return inst =>
             accepted_by task_type_signature kw = true
             /\ (exists attrs, inst = PInstance BaseTaskType attrs
                               /\ dict_keys attrs = task_type_fields)
             /\ (forall p, In p task_type_fields ->
                           getattr inst p = dict_get kw p)
         | Raise e =>
             accepted_by task_type_signature kw = false
             /\ exc_name e = "TypeError"
         end.
Proof.
  intro kw. unfold run.
  destruct (accepted_by task_type_signature kw) eqn:Hacc.
  - destruct (bind_args_accepts _ _ Hacc) as [env [Henv Hget]].
    rewrite (construct_task_type kw env [] Henv).
    eexists. split; [reflexivity |].
    split; [reflexivity |]. split; [eexists; split; reflexivity |].
    intros p Hp.
    assert (Hb := arg_bound task_type_signature kw env p Hget Hp Hacc).
    unfold bound_value in Hb. simpl sig_defaults in Hb. simpl dict_get at 2 in Hb.
    replace (dict_get kw p) with (Some (arg env p))
      by (rewrite Hb; destruct (dict_get kw p); reflexivity).
    each_parameter Hp; reflexivity.
  - destruct (bind_args_rejects _ _ Hacc) as [msg Hmsg].
    rewrite (construct_task_type_raises kw _ [] Hmsg).
    eexists. split; [reflexivity |]. split; reflexivity.
Qed.

(** X6.  [BaseTaskInstance] called with keywords returns an instance
    exactly when the keywords are distinct parameter names covering the
    eight required ones; every attribute then holds the keyword of its
    name, and [name] is the empty string when it is left out.  With any
    other keywords the call raises [TypeError]. *)
Theorem X6_task_instance_constructor_stores_its_keywords :
  forall (kw : dict),
    exists o,
      run (construct BaseTaskInstance [] kw) = (o, [])
      /\ match o with
         | Return inst =>
             accepted_by task_instance_signature kw = true
             /\ (forall p, In p (sig_params task_instance_signature) ->
                           getattr inst p
                           = bound_value task_instance_signature kw p)
             /\ getattr inst "name"
                = Some (match dict_get kw "name" with
                        | Some v => v
                        | None => empty_str
                        end)
         | Raise e =>
             accepted_by task_instance_signature kw = false
             /\ exc_name e = "TypeError"
         end.
Proof.
  intro kw. unfold run.
  destruct (accepted_by task_instance_signature kw) eqn:Hacc.
  - destruct (bind_args_accepts _ _ Hacc) as [env [Henv Hget]].
    rewrite (construct_task_instance kw env [] Henv).
    eexists. split; [reflexivity |].
    split; [reflexivity |].
    assert (Hall : forall p, In p (sig_params task_instance_signature) ->
              getattr
                (PInstance BaseTaskInstance
                   [ ("name", arg env "name");
                     ("uuid", arg env "uuid");
                     ("state", arg env "state");
                     ("user", arg env "user");
                     ("task_queue", arg env "task_queue");
                     ("task_type", arg env "task_type");
                     ("datetime_created", arg env "datetime_created");
                     ("datetime_finished", arg env "datetime_finished");
                     ("arguments", arg env "arguments") ]) p
              = bound_value task_instance_signature kw p).
    { intros p Hp.
      rewrite <- (arg_bound task_instance_signature kw env p Hget Hp Hacc).
      each_parameter Hp; reflexivity. }
    split; [exact Hall |].
    rewrite Hall by (simpl; tauto).
    unfold bound_value. simpl.
    destruct (dict_get kw "name"); reflexivity.
  - destruct (bind_args_rejects _ _ Hacc) as [msg Hmsg].
    rewrite (construct_task_instance_raises kw _ [] Hmsg).
    eexists. split; [reflexivity |]. split; reflexivity.
Qed.

(* ================================================================= *)
(** ** Task instance responses: what is accepted, and what comes out *)

Lemma coerced_response_keys (d : dict) (created : datetime) (f fin : pyval) :
  dict_contains d "datetime_created" = true ->
  dict_contains d "datetime_finished" = true ->
  dict_keys (coerced_response d created f fin) = dict_keys d.
Proof.
  intros Hc Hf. unfold coerced_response. cbv zeta.
  assert (H1 : dict_keys (dict_set d "datetime_created" (PDatetime created))
               = dict_keys d) by now apply dict_set_present_keys.
  destruct (truthy f); [| exact H1].
  rewrite dict_set_present_keys; [exact H1 |].
  now rewrite (dict_contains_ext _ d "datetime_finished" H1).
Qed.

Lemma coerced_response_created (d : dict) (created : datetime)
    (f fin : pyval) :
  dict_get (coerced_response d created f fin) "datetime_created"
  = Some (PDatetime created).
Proof.
  unfold coerced_response. cbv zeta. destruct (truthy f).
  - rewrite dict_get_set_other; [apply dict_get_set_same | discriminate].
  - apply dict_get_set_same.
Qed.

Lemma coerced_response_finished (parse : string -> option datetime)
    (d : dict) (created : datetime) (f fin : pyval) :
  dict_get d "datetime_finished" = Some f ->
  finished_attribute parse f = Some fin ->
  dict_get (coerced_response d created f fin) "datetime_finished" = Some fin.
Proof.
  intros Hf Hfin. unfold coerced_response, finished_attribute in *. cbv zeta.
  destruct (truthy f).
  - apply dict_get_set_same.
  - inversion Hfin; subst.
    rewrite dict_get_set_other; [exact Hf | discriminate].
Qed.

Lemma coerced_response_other (d : dict) (created : datetime) (f fin : pyval)
    (p : string) :
  p <> "datetime_created" -> p <> "datetime_finished" ->
  dict_get (coerced_response d created f fin) p = dict_get d p.
Proof.
  intros Hc Hf. unfold coerced_response. cbv zeta. destruct (truthy f).
  - rewrite dict_get_set_other by congruence.
    now rewrite dict_get_set_other by congruence.
  - now rewrite dict_get_set_other by congruence.
Qed.

(** With a creation string that parses and a [datetime_finished] that is
    false or parses, the conversion is the constructor call on the
    coerced dictionary. *)
Lemma task_instance_parse_reduces (parse : string -> option datetime)
    (d : dict) (s : string) (created : datetime) (f fin : pyval)
    (t : trace) :
  dict_get d "datetime_created" = Some (PStr s) ->
  parse s = Some created ->
  dict_get d "datetime_finished" = Some f ->
  finished_attribute parse f = Some fin ->
  BaseTaskInstanceManager_response_data_to_model_instance
    parse BaseTaskInstanceManager (PDict d) t
  = construct BaseTaskInstance [] (coerced_response d created f fin) t.
Proof.
  intros Hc Hparse Hf Hfin.
  assert (Hf1 : dict_get (dict_set d "datetime_created" (PDatetime created))
                  "datetime_finished" = Some f).
  { rewrite dict_get_set_other; [exact Hf | discriminate]. }
  unfold BaseTaskInstanceManager_response_data_to_model_instance.
  unfold bind at 1. unfold getitem at 1, subscript. rewrite Hc.
  unfold ret at 1. unfold bind at 1. unfold dateutil_parser_parse at 1.
  rewrite Hparse. unfold ret at 1. unfold bind at 1.
  unfold setitem at 1. unfold ret at 1.
  unfold bind at 1. unfold getitem at 1, subscript. rewrite Hf1.
  unfold ret at 1. unfold bind at 1.
  unfold finished_attribute in Hfin. unfold coerced_response. cbv zeta.
  destruct (truthy f) eqn:Ht.
  - destruct f as [| | | s' | | | | |]; try discriminate.
    destruct (parse s') as [dt |] eqn:Hp; [| discriminate].
    inversion Hfin; subst.
    unfold bind at 1. unfold getitem at 1, subscript. rewrite Hf1.
    unfold ret at 1. unfold bind at 1. unfold dateutil_parser_parse at 1.
    rewrite Hp. reflexivity.
  - reflexivity.
Qed.

(** A conversion that returns went through both coercions. *)
Lemma task_instance_parse_inversion (parse : string -> option datetime)
    (rd inst : pyval) (t t' : trace) :
  BaseTaskInstanceManager_response_data_to_model_instance
    parse BaseTaskInstanceManager rd t = (Return inst, t') ->
  exists d s created f fin,
    rd = PDict d
    /\ dict_get d "datetime_created" = Some (PStr s)
    /\ parse s = Some created
    /\ dict_get d "datetime_finished" = Some f
    /\ finished_attribute parse f = Some fin.
Proof.
  intro H.
  destruct rd as [| | | | | d | | |]; try discriminate H.
  unfold BaseTaskInstanceManager_response_data_to_model_instance in H.
  unfold bind at 1 in H. unfold getitem at 1, subscript in H.
  destruct (dict_get d "datetime_created") as [c |] eqn:Hc;
    [| discriminate H].
  unfold ret at 1 in H. unfold bind at 1 in H.
  destruct c as [| | | s | | | | |]; try discriminate H.
  unfold dateutil_parser_parse at 1 in H.
  destruct (parse s) as [created |] eqn:Hparse; [| discriminate H].
  unfold ret at 1 in H. unfold bind at 1 in H.
  unfold setitem at 1 in H. unfold ret at 1 in H.
  unfold bind at 1 in H. unfold getitem at 1, subscript in H.
  rewrite dict_get_set_other in H by discriminate.
  destruct (dict_get d "datetime_finished") as [f |] eqn:Hf;
    [| discriminate H].
  exists d, s, created, f.
  unfold ret at 1 in H. unfold bind at 1 in H.
  unfold finished_attribute.
  destruct (truthy f) eqn:Ht.
  - unfold bind at 1 in H. unfold getitem at 1, subscript in H.
    rewrite dict_get_set_other in H by discriminate. rewrite Hf in H.
    unfold ret at 1 in H. unfold bind at 1 in H.
    destruct f as [| | | s' | | | | |]; try discriminate H.
    unfold dateutil_parser_parse at 1 in H.
    destruct (parse s') as [dt |] eqn:Hp; [| discriminate H].
    exists (PDatetime dt). repeat split; try assumption; try reflexivity.
  - exists f. repeat split; try assumption; reflexivity.
Qed.

Lemma coerced_response_accepted (d : dict) (created : datetime)
    (f fin : pyval) (c : pyval) :
  dict_get d "datetime_created" = Some c ->
  dict_get d "datetime_finished" = Some f ->
  accepted_by task_instance_signature (coerced_response d created f fin)
  = task_instance_response d.
Proof.
  intros Hc Hf.
  change (accepted_by task_instance_signature
            (coerced_response d created f fin))
    with (task_instance_response (coerced_response d created f fin)).
  apply task_instance_response_ext, coerced_response_keys;
    unfold dict_contains; [now rewrite Hc | now rewrite Hf].
Qed.

(** X7.  Whenever the task instance conversion returns, it has sent
    nothing, the response was a dictionary the constructor accepts, its
    [datetime_created] was a string that parses, and the instance holds
    the parsed creation time and, for [datetime_finished], either the
    false value of the response or its parsed date-time. *)
Theorem X7_returned_task_instance_is_well_formed :
  forall (parse : string -> option datetime) (rd inst : pyval)
         (t t' : trace),
    BaseTaskInstanceManager_response_data_to_model_instance
      parse BaseTaskInstanceManager rd t = (Return inst, t') ->
    t' = t
    /\ exists d s created f fin,
         rd = PDict d
         /\ task_instance_response d = true
         /\ dict_get d "datetime_created" = Some (PStr s)
         /\ parse s = Some created
         /\ dict_get d "datetime_finished" = Some f
         /\ finished_attribute parse f = Some fin
         /\ getattr inst "datetime_created" = Some (PDatetime created)
         /\ getattr inst "datetime_finished" = Some fin.
Proof.
  intros parse rd inst t t' H.
  destruct (task_instance_parse_inversion parse rd inst t t' H)
    as [d [s [created [f [fin [-> [Hc [Hparse [Hf Hfin]]]]]]]]].
  rewrite (task_instance_parse_reduces parse d s created f fin t
             Hc Hparse Hf Hfin) in H.
  destruct (bind_args task_instance_signature []
              (coerced_response d created f fin)) as [env | e] eqn:E.
  - rewrite (construct_task_instance _ env t E) in H.
    inversion H; subst. split; [reflexivity |].
    destruct (bind_args_returns _ _ _ E) as [Hacc Hget].
    exists d, s, created, f, fin.
    split; [reflexivity |].
    split; [now rewrite <- (coerced_response_accepted d created f fin _ Hc Hf) |].
    repeat (split; [assumption |]).
    split; cbn [getattr dict_get String.eqb Ascii.eqb Bool.eqb];
      rewrite (arg_bound _ _ env _ Hget) by (simpl; tauto || exact Hacc);
      unfold bound_value.
    + now rewrite coerced_response_created.
    + now rewrite (coerced_response_finished parse d created f fin Hf Hfin).
  - rewrite (construct_task_instance_raises _ e t E) in H. discriminate.
Qed.

Lemma X7_returned_task_instance_is_well_formed_witness :
  exists inst,
    BaseTaskInstanceManager_response_data_to_model_instance
      sample_parse BaseTaskInstanceManager (PDict sample_instance_response) []
    = (Return inst, [])
    /\ exists d s created f fin,
         PDict sample_instance_response = PDict d
         /\ task_instance_response d = true
         /\ dict_get d "datetime_created" = Some (PStr s)
         /\ sample_parse s = Some created
         /\ dict_get d "datetime_finished" = Some f
         /\ finished_attribute sample_parse f = Some fin
         /\ getattr inst "datetime_created" = Some (PDatetime created)
         /\ getattr inst "datetime_finished" = Some fin.
Proof.
  eexists. split; [reflexivity |].
  eapply proj2.
  eapply (X7_returned_task_instance_is_well_formed sample_parse
            (PDict sample_instance_response) _ [] []).
  reflexivity.
Defined.

(** X8.  For a response the constructor accepts, with a creation string
    that parses and a [datetime_finished] that is false or parses, the
    conversion returns an instance in which every attribute other than
    the two date-times is the response's field of that name, [name]
    being the empty string when the response has none. *)
Theorem X8_task_instance_attributes_are_the_response_fields :
  forall (parse : string -> option datetime) (d : dict)
         (s : string) (created : datetime) (f fin : pyval),
    task_instance_response d = true ->
    dict_get d "datetime_created" = Some (PStr s) ->
    parse s = Some created ->
    dict_get d "datetime_finished" = Some f ->
    finished_attribute parse f = Some fin ->
    exists inst,
      run (BaseTaskInstanceManager_response_data_to_model_instance
             parse BaseTaskInstanceManager (PDict d))
      = (Return inst, [])
      /\ forall p, In p (sig_params task_instance_signature) ->
                   p <> "datetime_created" -> p <> "datetime_finished" ->
                   getattr inst p = bound_value task_instance_signature d p.
Proof.
  intros parse d s created f fin Hwf Hc Hparse Hf Hfin. unfold run.
  rewrite (task_instance_parse_reduces parse d s created f fin []
             Hc Hparse Hf Hfin).
  assert (Hacc : accepted_by task_instance_signature
                   (coerced_response d created f fin) = true)
    by now rewrite (coerced_response_accepted d created f fin _ Hc Hf).
  destruct (bind_args_accepts _ _ Hacc) as [env [Henv Hget]].
  rewrite (construct_task_instance _ env [] Henv).
  eexists. split; [reflexivity |].
  intros p Hp Hnc Hnf.
  assert (Hb := arg_bound _ _ env p Hget Hp Hacc).
  unfold bound_value in *.
  rewrite (coerced_response_other d created f fin p Hnc Hnf) in Hb.
  rewrite <- Hb.
  each_parameter Hp; reflexivity.
Qed.

Lemma X8_task_instance_attributes_are_the_response_fields_witness :
  exists inst,
    run (BaseTaskInstanceManager_response_data_to_model_instance
           sample_parse BaseTaskInstanceManager
           (PDict sample_instance_response))
    = (Return inst, [])
    /\ forall p, In p (sig_params task_instance_signature) ->
                 p <> "datetime_created" -> p <> "datetime_finished" ->
                 getattr inst p
                 = bound_value task_instance_signature
                     sample_instance_response p.
Proof.
  apply (X8_task_instance_attributes_are_the_response_fields
           sample_parse sample_instance_response
           "2018-07-04T12:30:00Z" sample_datetime PNone PNone);
    reflexivity.
Defined.

(** X9.  A response whose two date-time fields are fine but which has a
    key the constructor does not declare, or lacks one it requires,
    makes the conversion raise [TypeError]. *)
Theorem X9_unexpected_response_fields_raise_TypeError :
  forall (parse : string -> option datetime) (d : dict)
         (s : string) (created : datetime) (f fin : pyval),
    task_instance_response d = false ->
    dict_get d "datetime_created" = Some (PStr s) ->
    parse s = Some created ->
    dict_get d "datetime_finished" = Some f ->
    finished_attribute parse f = Some fin ->
    exists msg,
      run (BaseTaskInstanceManager_response_data_to_model_instance
             parse BaseTaskInstanceManager (PDict d))
      = (Raise (TypeError msg), []).
Proof.
  intros parse d s created f fin Hwf Hc Hparse Hf Hfin. unfold run.
  rewrite (task_instance_parse_reduces parse d s created f fin []
             Hc Hparse Hf Hfin).
  assert (Hacc : accepted_by task_instance_signature
                   (coerced_response d created f fin) = false)
    by now rewrite (coerced_response_accepted d created f fin _ Hc Hf).
  destruct (bind_args_rejects _ _ Hacc) as [msg Hmsg].
  exists msg. now apply construct_task_instance_raises.
Qed.

Lemma X9_unexpected_response_fields_raise_TypeError_witness :
  task_instance_response sample_response_with_url = false
  /\ exists msg,
       run (BaseTaskInstanceManager_response_data_to_model_instance
              sample_parse BaseTaskInstanceManager
              (PDict sample_response_with_url))
       = (Raise (TypeError msg), []).
Proof.
  split; [reflexivity |].
  apply (X9_unexpected_response_fields_raise_TypeError
           sample_parse sample_response_with_url
           "2018-07-04T12:30:00Z" sample_datetime PNone PNone);
    reflexivity.
Defined.

(** X10.  The conversion subscripts the response for both date-time
    keys: a response without [datetime_created] raises [KeyError] for
    it, and one whose creation time parses but which has no
    [datetime_finished] key raises [KeyError] for that key. *)
Theorem X10_missing_datetime_keys_raise_KeyError :
  forall (parse : string -> option datetime) (d : dict) (k : string),
    (k = "datetime_created" /\ dict_get d "datetime_created" = None)
    \/ (k = "datetime_finished"
        /\ (exists s created,
               dict_get d "datetime_created" = Some (PStr s)
               /\ parse s = Some created)
        /\ dict_get d "datetime_finished" = None) ->
    run (BaseTaskInstanceManager_response_data_to_model_instance
           parse BaseTaskInstanceManager (PDict d))
    = (Raise (KeyError k), []).
Proof.
  intros parse d k [[-> Hc] | [-> [[s [created [Hc Hparse]]] Hf]]];
    unfold run, BaseTaskInstanceManager_response_data_to_model_instance;
    unfold bind at 1; unfold getitem at 1, subscript; rewrite Hc.
  - reflexivity.
  - unfold ret at 1. unfold bind at 1. unfold dateutil_parser_parse at 1.
    rewrite Hparse. unfold ret at 1. unfold bind at 1.
    unfold setitem at 1. unfold ret at 1.
    unfold bind at 1. unfold getitem at 1, subscript.
    rewrite dict_get_set_other; [| discriminate]. rewrite Hf. reflexivity.
Qed.

Lemma X10_missing_datetime_keys_raise_KeyError_witness :
  dict_get sample_response_without_finished "datetime_created"
  = Some (PStr "2018-07-04T12:30:00Z")
  /\ dict_get sample_response_without_finished "datetime_finished" = None
  /\ run (BaseTaskInstanceManager_response_data_to_model_instance
            sample_parse BaseTaskInstanceManager
            (PDict sample_response_without_finished))
     = (Raise (KeyError "datetime_finished"), []).
Proof.
  split; [reflexivity |]. split; [reflexivity |].
  apply (X10_missing_datetime_keys_raise_KeyError sample_parse
           sample_response_without_finished "datetime_finished").
  right. split; [reflexivity |]. split; [| reflexivity].
  exists "2018-07-04T12:30:00Z", sample_datetime. split; reflexivity.
Defined.

(** X11.  A [datetime_created] that is not a string (null, say) makes
    the conversion raise [TypeError], and a string that does not parse
    makes it raise [ValueError]; whatever else the response holds. *)
Theorem X11_bad_creation_time_raises :
  forall (parse : string -> option datetime) (d : dict) (v : pyval),
    dict_get d "datetime_created" = Some v ->
    (forall s, v = PStr s -> parse s = None) ->
    exists e,
      run (BaseTaskInstanceManager_response_data_to_model_instance
             parse BaseTaskInstanceManager (PDict d))
      = (Raise e, [])
      /\ exc_name e = match v with
                      | PStr _ => "ValueError"
                      | _ => "TypeError"
                      end.
Proof.
  intros parse d v Hc Hbad.
  unfold run, BaseTaskInstanceManager_response_data_to_model_instance.
  unfold bind at 1. unfold getitem at 1, subscript. rewrite Hc.
  unfold ret at 1. unfold bind at 1.
  destruct v as [| | | s | | | | |];
    try (eexists; split; reflexivity).
  unfold dateutil_parser_parse at 1. rewrite (Hbad s eq_refl).
  eexists. split; reflexivity.
Qed.

Lemma X11_bad_creation_time_raises_witness :
  exists e,
    run (BaseTaskInstanceManager_response_data_to_model_instance
           sample_parse BaseTaskInstanceManager
           (PDict [("datetime_created", PStr "yesterday")]))
    = (Raise e, [])
    /\ exc_name e = "ValueError".
Proof.
  apply (X11_bad_creation_time_raises sample_parse
           [("datetime_created", PStr "yesterday")] (PStr "yesterday")).
  - reflexivity.
  - intros s E. inversion E; subst. reflexivity.
Defined.

(* ================================================================= *)
(** ** What the request-issuing methods send, and when *)

(** X12.  [BaseTaskTypeManager.create] encodes its three structured
    arguments before it posts: when [json.dumps] raises on one of them
    (the earlier ones having been encoded), [create] raises that
    exception and no request is sent. *)
Theorem X12_unserializable_task_type_argument_stops_before_the_post :
  forall (parse : string -> option datetime) (client : Client)
         (name command_to_run description environment_variables
          required_arguments required_arguments_default_values : pyval)
         (e : pyexc),
    encoded_argument environment_variables (PList []) = Raise e
    \/ (exists ev,
           encoded_argument environment_variables (PList []) = Return ev
           /\ encoded_argument required_arguments (PList []) = Raise e)
    \/ (exists ev ra,
           encoded_argument environment_variables (PList []) = Return ev
           /\ encoded_argument required_arguments (PList []) = Return ra
           /\ encoded_argument required_arguments_default_values (PDict [])
              = Raise e) ->
    run (BaseTaskTypeManager_create parse (task_type_manager client)
           name command_to_run description environment_variables
           required_arguments required_arguments_default_values)
    = (Raise e, []).
Proof.
  intros parse client name command_to_run description environment_variables
         required_arguments required_arguments_default_values e H.
  unfold encoded_argument in H.
  unfold run, BaseTaskTypeManager_create. cbv zeta.
  unfold bind at 1 2 3 4 5. simpl.
  destruct H as [H | [[ev [H1 H]] | [ev [ra [H1 [H2 H]]]]]].
  - rewrite H. reflexivity.
  - rewrite H1, H. reflexivity.
  - rewrite H1, H2, H. reflexivity.
Qed.

Lemma X12_unserializable_task_type_argument_stops_before_the_post_witness :
  run (BaseTaskTypeManager_create sample_parse
         (task_type_manager (sample_client 201))
         (PStr "train") (PStr "python train.py") empty_str
         (PList [PDatetime sample_datetime]) PNone PNone)
  = (Raise (TypeError "Object of type datetime is not JSON serializable"),
     []).
Proof.
  apply (X12_unserializable_task_type_argument_stops_before_the_post
           sample_parse (sample_client 201)).
  left. reflexivity.
Defined.

(** X13.  [BaseTaskInstanceManager.create] replaces every false
    [arguments] value, not only [None], by the empty dict: the payload
    of its single POST then carries the text [{}] (an empty list is not
    posted as [[]]).  The call then raises what the session raised, or
    [TypeError] from the validation call when the session answered. *)
Theorem X13_false_arguments_are_posted_as_an_empty_object :
  forall (parse : string -> option datetime) (client : Client)
         (task_type_id task_queue_id arguments name : pyval),
    truthy arguments = false ->
    run (BaseTaskInstanceManager_create parse (task_instance_manager client)
           task_type_id task_queue_id arguments name)
    = (match session_post (session client)
               (base_api_url client ++ "NotImplemented")
               (task_instance_payload name "{}" task_type_id task_queue_id)
       with
       | Return _ =>
           Raise (unexpected_keyword "validate_request_success"
                    "response_text")
       | Raise e => Raise e
       end,
       [ POST (base_api_url client ++ "NotImplemented")
           (task_instance_payload name "{}" task_type_id task_queue_id) ]).
Proof.
  intros parse client task_type_id task_queue_id arguments name Hfalse.
  unfold run, BaseTaskInstanceManager_create. cbv zeta. rewrite Hfalse.
  unfold bind at 1 2 3. simpl.
  unfold lift, bind, http_post, log, task_instance_payload.
  destruct (session_post (session client) _ _); reflexivity.
Qed.

Lemma X13_false_arguments_are_posted_as_an_empty_object_witness :
  truthy (PList []) = false
  /\ run (BaseTaskInstanceManager_create sample_parse
            (task_instance_manager (sample_client 201))
            (PInt 2) (PInt 1) (PList []) (PStr "nightly"))
     = (Raise (unexpected_keyword "validate_request_success" "response_text"),
        [ POST "https://saltant.example/api/NotImplemented"
            (task_instance_payload (PStr "nightly") "{}" (PInt 2) (PInt 1)) ]).
Proof.
  split; [reflexivity |].
  apply (X13_false_arguments_are_posted_as_an_empty_object sample_parse
           (sample_client 201) (PInt 2) (PInt 1) (PList []) (PStr "nightly")).
  reflexivity.
Defined.

(** X14.  When [arguments] is a true value [json.dumps] cannot encode,
    [BaseTaskInstanceManager.create] raises the encoder's exception and
    sends nothing. *)
Theorem X14_unserializable_arguments_stop_before_the_post :
  forall (parse : string -> option datetime) (client : Client)
         (task_type_id task_queue_id arguments name : pyval) (e : pyexc),
    truthy arguments = true ->
    json_dumps arguments = Raise e ->
    run (BaseTaskInstanceManager_create parse (task_instance_manager client)
           task_type_id task_queue_id arguments name)
    = (Raise e, []).
Proof.
  intros parse client task_type_id task_queue_id arguments name e Ht He.
  unfold run, BaseTaskInstanceManager_create. cbv zeta. rewrite Ht.
  unfold bind at 1 2 3. simpl. rewrite He. reflexivity.
Qed.

Lemma X14_unserializable_arguments_stop_before_the_post_witness :
  run (BaseTaskInstanceManager_create sample_parse
         (task_instance_manager (sample_client 201))
         (PInt 2) (PInt 1) (PDict [("since", PDatetime sample_datetime)])
         (PStr "nightly"))
  = (Raise (TypeError "Object of type datetime is not JSON serializable"),
     []).
Proof.
  apply (X14_unserializable_arguments_stop_before_the_post sample_parse
           (sample_client 201)); reflexivity.
Defined.

(** X15.  [BaseTaskInstanceManager.get] sends exactly one GET, to the
    base URL followed by the inherited detail template
    [NotImplemented], which has no placeholder: the URL does not depend
    on the uuid.  An exception of the session propagates; when the
    session answers, the call raises [NameError]. *)
Theorem X15_get_sends_one_request_that_ignores_the_uuid :
  forall (parse : string -> option datetime) (str : pyval -> string)
         (client : Client) (uuid : pyval),
    run (BaseTaskInstanceManager_get parse str
           (task_instance_manager client) uuid)
    = (match session_get (session client)
               (base_api_url client ++ "NotImplemented")
       with
       | Return _ => Raise (NameError "reponse")
       | Raise e => Raise e
       end,
       [GET (base_api_url client ++ "NotImplemented")]).
Proof.
  intros parse str client uuid.
  unfold run, BaseTaskInstanceManager_get. cbv zeta.
  unfold bind at 1 2 3. simpl.
  unfold http_get, bind, log, lift.
  destruct (session_get (session client) _); reflexivity.
Qed.

(** X16.  Once its three arguments are encoded,
    [BaseTaskTypeManager.create] sends exactly one POST, to the base URL
    followed by [NotImplemented], with the six-field payload; an
    exception of the session propagates without a second attempt, and
    an answer of any status is followed by [TypeError]. *)
Theorem X16_task_type_create_posts_once :
  forall (parse : string -> option datetime) (client : Client)
         (name command_to_run description environment_variables
          required_arguments required_arguments_default_values : pyval)
         (ev ra rd : string),
    encoded_argument environment_variables (PList []) = Return ev ->
    encoded_argument required_arguments (PList []) = Return ra ->
    encoded_argument required_arguments_default_values (PDict [])
    = Return rd ->
    run (BaseTaskTypeManager_create parse (task_type_manager client)
           name command_to_run description environment_variables
           required_arguments required_arguments_default_values)
    = (match session_post (session client)
               (base_api_url client ++ "NotImplemented")
               (task_type_payload name description command_to_run ev ra rd)
       with
       | Return _ =>
           Raise (unexpected_keyword "validate_request_success"
                    "response_text")
       | Raise e => Raise e
       end,
       [ POST (base_api_url client ++ "NotImplemented")
           (task_type_payload name description command_to_run ev ra rd) ]).
Proof.
  intros parse client name command_to_run description environment_variables
         required_arguments required_arguments_default_values ev ra rd
         Hev Hra Hrd.
  unfold encoded_argument in *.
  unfold run, BaseTaskTypeManager_create. cbv zeta.
  unfold bind at 1 2 3 4 5. simpl.
  rewrite Hev, Hra, Hrd.
  unfold lift, bind, http_post, log, task_type_payload.
  destruct (session_post (session client) _ _); reflexivity.
Qed.

Lemma X16_task_type_create_posts_once_witness :
  run (BaseTaskTypeManager_create sample_parse
         (task_type_manager (failing "https://saltant.example/api/"
                               (ExternalError "connection refused")))
         (PStr "train") (PStr "python train.py") empty_str
         PNone (PList [PStr "epochs"]) PNone)
  = (Raise (ExternalError "connection refused"),
     [ POST "https://saltant.example/api/NotImplemented"
         (task_type_payload (PStr "train") empty_str (PStr "python train.py")
            "[]" ("[" ++ json_string "epochs" ++ "]") "{}") ]).
Proof.
  apply (X16_task_type_create_posts_once sample_parse
           (failing "https://saltant.example/api/"
              (ExternalError "connection refused"))
           (PStr "train") (PStr "python train.py") empty_str
           PNone (PList [PStr "epochs"]) PNone
           "[]" ("[" ++ json_string "epochs" ++ "]") "{}");
    reflexivity.
Defined.

(* ================================================================= *)
(** ** The query string loop and the status validation *)



(** X18.  Called on any manager with the three keywords it declares,
    [validate_request_success] returns when the status equals the
    expected one, and otherwise raises [BadHttpRequestError] with the
    message "Request to <url> failed with status <status>"; it sends
    nothing. *)
Theorem X18_validation_by_keywords :
  forall (cls : class) (client : Client) (url : string) (code expected : Z),
    issubclass cls ModelManager = true ->
    run (call_validate_request_success (mkManager cls client)
           [ ("request_url", PStr url);
             ("status_code", PInt code);
             ("expected_status_code", PInt expected) ])
    = (if Z.eqb code expected then Return tt
       else Raise (BadHttpRequestError
                     ("Request to " ++ url ++ " failed with status "
                      ++ str_of_Z code)),
       []).
Proof.
  intros cls client url code expected Hsub.
  destruct cls; simpl in Hsub; try discriminate;
    unfold run, call_validate_request_success, call_found; simpl;
    unfold bind, lift; simpl;
    rewrite validate_request_success_eq;
    destruct (Z.eqb code expected); reflexivity.
Qed.

Lemma X18_validation_by_keywords_witness :
  issubclass BaseTaskInstanceManager ModelManager = true
  /\ run (call_validate_request_success
            (mkManager BaseTaskInstanceManager (sample_client 404))
            [ ("request_url", PStr "https://saltant.example/api/x/");
              ("status_code", PInt 404);
              ("expected_status_code", PInt HTTP_200_OK) ])
     = (Raise (BadHttpRequestError
          "Request to https://saltant.example/api/x/ failed with status 404"),
        []).
Proof.
  split; [reflexivity |].
  apply (X18_validation_by_keywords BaseTaskInstanceManager
           (sample_client 404) "https://saltant.example/api/x/" 404
           HTTP_200_OK).
  reflexivity.
Defined.

(* ================================================================= *)
(** ** Display strings *)

(** X19.  The display string of a task instance built from accepted
    keywords is its [uuid] when that is a string; [__str__] returns the
    attribute unconverted, so with any other uuid (a number, [None])
    [str] raises [TypeError]. *)
Theorem X19_task_instance_displays_its_uuid :
  forall (str : pyval -> string) (kw : dict),
    accepted_by task_instance_signature kw = true ->
    exists inst,
      run (construct BaseTaskInstance [] kw) = (Return inst, [])
      /\ run (str_of_model str inst)
         = (match dict_get kw "uuid" with
            | Some (PStr s) => Return s
            | _ => Raise (TypeError "__str__ returned non-string")
            end, []).
Proof.
  intros str kw Hacc. unfold run.
  destruct (bind_args_accepts _ _ Hacc) as [env [Henv Hget]].
  rewrite (construct_task_instance kw env [] Henv).
  eexists. split; [reflexivity |].
  assert (Hb : Some (arg env "uuid")
               = bound_value task_instance_signature kw "uuid")
    by (apply arg_bound; [exact Hget | simpl; tauto | exact Hacc]).
  unfold bound_value in Hb. simpl sig_defaults in Hb.
  assert (Hu : dict_get kw "uuid" = Some (arg env "uuid")).
  { destruct (dict_get kw "uuid"); [now inversion Hb | discriminate Hb]. }
  rewrite Hu.
  destruct (arg env "uuid"); reflexivity.
Qed.

Lemma X19_task_instance_displays_its_uuid_witness :
  accepted_by task_instance_signature sample_instance_response = true
  /\ exists inst,
       run (construct BaseTaskInstance [] sample_instance_response)
       = (Return inst, [])
       /\ run (str_of_model sample_str inst) = (Return "6f6a2d6c", []).
Proof.
  split; [reflexivity |].
  apply (X19_task_instance_displays_its_uuid sample_str
           sample_instance_response).
  reflexivity.
Defined.



(* ================================================================= *)
(** ** Container task types through the manager *)

(** X21.  Whatever positional and keyword arguments it is called with,
    [ContainerTaskTypeManager.create] raises [TypeError] or
    [AttributeError] and sends nothing: the arguments may not fit, the
    extra data may have no [update] method, and a call that gets that
    far hands [extra_data_to_post=] to a parent that does not take
    it. *)
Theorem X21_container_task_types_cannot_be_created :
  forall (parse : string -> option datetime) (str : pyval -> string)
         (client : Client) (pos : list pyval) (kw : dict),
    fails_with
      (fun e => exc_name e = "TypeError" \/ exc_name e = "AttributeError")
      (call_method parse str (container_task_type_manager client)
         "create" pos kw).
Proof.
  intros parse str client pos kw t.
  unfold call_method, call_found. simpl. unfold bind, lift.
  match goal with
  | |- context [bind_args ?s pos kw] => destruct (bind_args s pos kw) eqn:E
  end.
  - unfold ContainerTaskTypeManager_create. cbv zeta.
    destruct (arg a "extra_data_to_post");
      (eexists; split; [reflexivity | simpl; tauto]).
  - destruct (bind_args_TypeError _ _ _ _ E) as [msg ->].
    eexists. split; [reflexivity | left; reflexivity].
Qed.

(* ================================================================= *)
(** ** Task type responses *)

(** X22.  On a task type manager the conversion of a response checks the
    creation time before it fails: a dictionary without
    [datetime_created] raises [KeyError], a value there that is not a
    string raises [TypeError], a string that does not parse raises
    [ValueError], and only a creation time that parses reaches the
    [AttributeError] of the missing parent method.  Nothing is sent. *)
Theorem X22_task_type_response_errors :
  forall (parse : string -> option datetime) (cls : class)
         (client : Client) (d : dict),
    issubclass cls BaseTaskTypeManager = true ->
    exists e,
      run (BaseTaskTypeManager_response_data_to_model_instance
             parse (mkManager cls client) (PDict d))
      = (Raise e, [])
      /\ exc_name e
         = match dict_get d "datetime_created" with
           | None => "KeyError"
           | Some (PStr s) =>
               match parse s with
               | None => "ValueError"
               | Some _ => "AttributeError"
               end
           | Some _ => "TypeError"
           end.
Proof.
  intros parse cls client d Hsub.
  unfold run, BaseTaskTypeManager_response_data_to_model_instance.
  unfold bind at 1. unfold getitem at 1, subscript.
  destruct (dict_get d "datetime_created") as [v |];
    [| eexists; split; reflexivity].
  unfold ret at 1. unfold bind at 1.
  destruct v as [| | | s | | | | |];
    try (eexists; split; reflexivity).
  unfold dateutil_parser_parse at 1.
  destruct (parse s) as [created |];
    [| eexists; split; reflexivity].
  destruct cls; simpl in Hsub; try discriminate;
    (eexists; split; reflexivity).
Qed.

Lemma X22_task_type_response_errors_witness :
  issubclass ContainerTaskTypeManager BaseTaskTypeManager = true
  /\ exists e,
       run (BaseTaskTypeManager_response_data_to_model_instance
              sample_parse
              (mkManager ContainerTaskTypeManager (sample_client 200))
              (PDict [("id", PInt 5); ("datetime_created", PNone)]))
       = (Raise e, [])
       /\ exc_name e = "TypeError".
Proof.
  split; [reflexivity |].
  apply (X22_task_type_response_errors sample_parse ContainerTaskTypeManager
           (sample_client 200)
           [("id", PInt 5); ("datetime_created", PNone)]).
  reflexivity.
Defined.
